(** * Gerryfair cost-sensitive classification oracles

    A shallow embedding of
    [aif360/algorithms/inprocessing/gerryfair/reg_oracle_class.py]:
    the three predictor classes [RegOracle], [RandomLinearThresh] and
    [LinearThresh], each with its constructor and its [predict] method.

    Python objects live in a store addressed by references, so that the
    aliasing of [self.coefficient], of the data set [X] and of the freshly
    created result list [y] is visible.  Every method is a computation in a
    state-and-exception monad over that store. *)

From Stdlib Require Import ZArith QArith String.
From stdpp Require Import gmap list.
Close Scope Q_scope.
Local Open Scope Z_scope.

(** ** Numbers

    The arithmetic of the array elements (numpy's [float64] in practice) is
    left abstract: only the operations the source applies are required, and
    no law is assumed about them.  Every statement of the generic part below
    therefore holds for IEEE doubles as well as for exact rationals. *)

Class Number (R : Type) := {
  num_of_Z : Z -> R;          (* conversion of a Python int *)
  num_add  : R -> R -> R;
  num_sub  : R -> R -> R;
  num_mul  : R -> R -> R;
  num_div  : R -> R -> R;
  num_ltb  : R -> R -> bool   (* the comparison [<] *)
}.

#[export] Instance Number_Q : Number Q := {
  num_of_Z := inject_Z;
  num_add  := Qplus;
  num_sub  := Qminus;
  num_mul  := Qmult;
  num_div  := Qdiv;
  num_ltb  := fun a b => negb (Qle_bool b a)
}.

(** ** Exceptions, references and the random generator *)

Inductive exn :=
| AttributeError
| IndexError
| ValueError
| BdbQuit
| ModelError (msg : string).

Definition loc := positive.

(** Commands typed at the prompt of the interactive debugger.  The sessions
    described are those in which the user answers a stop with one of the two
    commands that end it, continue or quit; the end of the input stream acts
    as [pdb_quit].  Commands that keep the prompt open (stepping, printing)
    are outside the model. *)
Inductive pdb_cmd := pdb_continue | pdb_quit.

(** The state of numpy's global Mersenne Twister, seen through the sequence
    of 32-bit words it is going to emit and the number already consumed. *)
Record RandomState := {
  mt_words : nat -> Z;
  mt_pos   : nat
}.

Section Oracles.

Context {R : Type} `{Number R}.
(** [Ext] is the private state of the externally supplied regression
    models. *)
Context {Ext : Type}.

(** A regression model is an object with a [predict] method: given a
    one-row matrix it returns a cost or raises, and may update the models'
    own state. *)
Record regressor := {
  reg_predict : list (list R) -> Ext -> (exn + R) * Ext
}.

Inductive value :=
| VFloat (x : R)
| VInt (n : Z).

Inductive pyobj :=
| PyList (items : list value)
| DataFrame (rows : list (list R))
| RegOracleObj (b0 b1 : regressor)
| RandomLinearThreshObj (coefficient : loc)
| LinearThreshObj (coefficient : loc).

Record World := {
  heap  : gmap loc pyobj;
  ext   : Ext;
  rng   : RandomState;
  stdin : list pdb_cmd
}.

(** ** The monad of methods: state and exceptions *)

Definition M (A : Type) : Type := World -> (exn + A) * World.

Definition ret {A} (a : A) : M A := fun w => (inr a, w).

Definition raise {A} (e : exn) : M A := fun w => (inl e, w).

Definition bind {A B} (c : M A) (k : A -> M B) : M B :=
  fun w =>
    match c w with
    | (inl e, w') => (inl e, w')
    | (inr a, w') => k a w'
    end.

End Oracles.

Notation "'let!' x ':=' c 'in' k" := (bind c (fun x => k))
  (at level 10, x name, c at level 100, k at level 200).
Notation "c ';;' k" := (bind c (fun _ => k))
  (at level 100, k at level 200, right associativity).

Section Methods.

Context {R : Type} `{Number R} {Ext : Type}.

Abbreviation World := (@World R Ext).
Abbreviation pyobj := (@pyobj R Ext).
Abbreviation M := (@M R Ext).
Abbreviation value := (@value R).
Abbreviation regressor := (@regressor R Ext).

(** *** Store primitives *)

Definition set_heap (h : gmap loc pyobj) (w : World) : World :=
  {| heap := h; ext := ext w; rng := rng w; stdin := stdin w |}.

Definition set_ext (e : Ext) (w : World) : World :=
  {| heap := heap w; ext := e; rng := rng w; stdin := stdin w |}.

Definition set_rng (g : RandomState) (w : World) : World :=
  {| heap := heap w; ext := ext w; rng := g; stdin := stdin w |}.

Definition set_stdin (s : list pdb_cmd) (w : World) : World :=
  {| heap := heap w; ext := ext w; rng := rng w; stdin := s |}.

(** Creating an object: it gets a reference no live object has. *)
Definition alloc (o : pyobj) : M loc :=
  fun w =>
    let l := fresh (dom (heap w)) in
    (inr l, set_heap (<[l := o]> (heap w)) w).

Definition deref (l : loc) : M pyobj :=
  fun w =>
    match heap w !! l with
    | Some o => (inr o, w)
    | None => (inl AttributeError, w)
    end.

(** [y.append(v)]: the list object is updated in place. *)
Definition list_append (y : loc) (v : value) : M unit :=
  fun w =>
    match heap w !! y with
    | Some (PyList items) =>
        (inr tt, set_heap (<[y := PyList (items ++ [v])]> (heap w)) w)
    | _ => (inl AttributeError, w)
    end.

(** [range(n)] *)
Definition range (n : Z) : list nat := seq 0 (Z.to_nat n).

(** [for i in idx: body(i)] *)
Fixpoint for_each (idx : list nat) (body : nat -> M unit) : M unit :=
  match idx with
  | [] => ret tt
  | i :: rest => body i ;; for_each rest body
  end.

(** [[f(i) for i in idx]] *)
Fixpoint list_comprehension {A} (idx : list nat) (f : nat -> M A) : M (list A) :=
  match idx with
  | [] => ret []
  | i :: rest =>
      let! a := f i in
      let! l := list_comprehension rest f in
      ret (a :: l)
  end.

(** [int(b)] for a boolean [b] *)
Definition int_of_bool (b : bool) : value := VInt (if b then 1 else 0).

(** *** pandas and numpy *)

(** [X.shape[0]] *)
Definition shape0 (X : loc) : M Z :=
  let! o := deref X in
  match o with
  | DataFrame rows => ret (Z.of_nat (length rows))
  | _ => raise AttributeError
  end.

(** [X.iloc[i, :]] *)
Definition iloc (X : loc) (i : nat) : M (list R) :=
  let! o := deref X in
  match o with
  | DataFrame rows =>
      match rows !! i with
      | Some r => ret r
      | None => raise IndexError
      end
  | _ => raise AttributeError
  end.

(** [x.values.reshape(1, -1)]: the row as a matrix of one row. *)
Definition reshape_1 (x : list R) : list (list R) := [x].

Definition to_float (v : value) : R :=
  match v with
  | VFloat x => x
  | VInt n => num_of_Z n
  end.

(** The sum of the products of two vectors of the same length, accumulated
    from the left starting at zero. *)
Definition dot (a b : list R) : R :=
  fold_left (fun acc pq => num_add acc (num_mul (fst pq) (snd pq)))
            (zip a b) (num_of_Z 0).

(** [np.dot(beta, x)] for a Python list [beta] and a row [x]: the list is
    converted to an array, and the two vectors must have the same length. *)
Definition np_dot (beta : loc) (x : list R) : M R :=
  let! o := deref beta in
  match o with
  | PyList items =>
      let a := map to_float items in
      if Nat.eqb (length a) (length x) then ret (dot a x)
      else raise ValueError
  | _ => raise AttributeError
  end.

(** One 32-bit word of the generator. *)
Definition genrand_uint32 : M Z :=
  fun w =>
    let g := rng w in
    (inr (Z.land (mt_words g (mt_pos g)) 4294967295),
     set_rng {| mt_words := mt_words g; mt_pos := S (mt_pos g) |} w).

(** A double in [0, 1) made of 53 random bits. *)
Definition random_double : M R :=
  let! a := genrand_uint32 in
  let! b := genrand_uint32 in
  ret (num_div (num_add (num_mul (num_of_Z (Z.shiftr a 5)) (num_of_Z 67108864))
                        (num_of_Z (Z.shiftr b 6)))
               (num_of_Z 9007199254740992)).

(** [np.random.uniform(low, high)] *)
Definition np_random_uniform (low high : Z) : M R :=
  let flow := num_of_Z low in
  let fscale := num_sub (num_of_Z high) flow in
  let! u := random_double in
  ret (num_add flow (num_mul fscale u)).

(** *** The debugger *)

(** [pdb.set_trace()]: the call returns when the user resumes the program,
    and raises [BdbQuit] when the user quits or the input is exhausted. *)
Definition pdb_set_trace : M unit :=
  fun w =>
    match stdin w with
    | pdb_continue :: rest => (inr tt, set_stdin rest w)
    | pdb_quit :: rest => (inl BdbQuit, set_stdin rest w)
    | [] => (inl BdbQuit, w)
    end.

(** *** Attribute access and method calls *)

Definition getattr_b0 (self : loc) : M regressor :=
  let! o := deref self in
  match o with
  | RegOracleObj b0 _ => ret b0
  | _ => raise AttributeError
  end.

Definition getattr_b1 (self : loc) : M regressor :=
  let! o := deref self in
  match o with
  | RegOracleObj _ b1 => ret b1
  | _ => raise AttributeError
  end.

Definition getattr_coefficient (self : loc) : M loc :=
  let! o := deref self in
  match o with
  | RandomLinearThreshObj c => ret c
  | LinearThreshObj c => ret c
  | _ => raise AttributeError
  end.

(** [reg.predict(x)] *)
Definition call_predict (reg : regressor) (x : list (list R)) : M R :=
  fun w =>
    let (r, e) := reg_predict reg x (ext w) in
    (r, set_ext e w).

(** ** class RegOracle *)

Definition RegOracle_init (b0 b1 : regressor) : M loc :=
  alloc (RegOracleObj b0 b1).

Definition RegOracle_predict (self X : loc) : M loc :=
  let! reg0 := getattr_b0 self in
  let! reg1 := getattr_b1 self in
  let! n := shape0 X in
  let! y := alloc (PyList []) in
  pdb_set_trace ;;
  for_each (range n) (fun i =>
    let! x_i := iloc X i in
    let x_i := reshape_1 x_i in
    let! c_0 := call_predict reg0 x_i in
    let! c_1 := call_predict reg1 x_i in
    let y_i := int_of_bool (num_ltb c_1 c_0) in
    list_append y y_i) ;;
  ret y.

(** ** class RandomLinearThresh *)

Definition RandomLinearThresh_init (d : Z) : M loc :=
  let! ws := list_comprehension (range d) (fun _ => np_random_uniform (-1) 1) in
  let! coefficient := alloc (PyList (map VFloat ws)) in
  alloc (RandomLinearThreshObj coefficient).

Definition RandomLinearThresh_predict (self X : loc) : M loc :=
  let! beta := getattr_coefficient self in
  let! n := shape0 X in
  let! y := alloc (PyList []) in
  for_each (range n) (fun i =>
    let! x_i := iloc X i in
    let! c_1 := np_dot beta x_i in
    let y_i := int_of_bool (num_ltb c_1 (num_of_Z 0)) in
    list_append y y_i) ;;
  ret y.

(** ** class LinearThresh *)

Definition LinearThresh_init (d : loc) : M loc :=
  alloc (LinearThreshObj d).

Definition LinearThresh_predict (self X : loc) : M loc :=
  let! beta := getattr_coefficient self in
  let! n := shape0 X in
  let! y := alloc (PyList []) in
  for_each (range n) (fun i =>
    let! x_i := iloc X i in
    let! c_1 := np_dot beta x_i in
    let y_i := int_of_bool (num_ltb c_1 (num_of_Z 0)) in
    list_append y y_i) ;;
  ret y.

(** ** Reference functions

    [RegOracle.predict] as the specification asks for it, without the
    breakpoint, and the list-level functions the loops are compared with. *)

Definition RegOracle_predict_no_breakpoint (self X : loc) : M loc :=
  let! reg0 := getattr_b0 self in
  let! reg1 := getattr_b1 self in
  let! n := shape0 X in
  let! y := alloc (PyList []) in
  for_each (range n) (fun i =>
    let! x_i := iloc X i in
    let x_i := reshape_1 x_i in
    let! c_0 := call_predict reg0 x_i in
    let! c_1 := call_predict reg1 x_i in
    let y_i := int_of_bool (num_ltb c_1 c_0) in
    list_append y y_i) ;;
  ret y.

(** What the caller of a method sees: the exception, or the object the
    returned reference points to. *)
Definition returned (r : (exn + loc) * World) : exn + option pyobj :=
  match r with
  | (inl e, _) => inl e
  | (inr y, w) => inr (heap w !! y)
  end.

(** The weight vector reached through [self.coefficient]. *)
Definition coefficient_of (w : World) (self : loc) : option (list value) :=
  match heap w !! self with
  | Some (RandomLinearThreshObj c) | Some (LinearThreshObj c) =>
      match heap w !! c with
      | Some (PyList items) => Some items
      | _ => None
      end
  | _ => None
  end.

(** The label of one row under the weight vector [a]. *)
Definition threshold_label (a x : list R) : value :=
  int_of_bool (num_ltb (dot a x) (num_of_Z 0)).

(** The linear-threshold loop on the rows still to be visited: the labels
    appended to [acc], up to the first row whose length differs from that of
    the weight vector. *)
Fixpoint linear_scan (a : list R) (rows : list (list R)) (acc : list value)
  : (exn + unit) * list value :=
  match rows with
  | [] => (inr tt, acc)
  | x :: rest =>
      if Nat.eqb (length a) (length x)
      then linear_scan a rest (acc ++ [threshold_label a x])
      else (inl ValueError, acc)
  end.

(** The regression-oracle loop on the rows still to be visited, threading
    the state of the models. *)
Fixpoint oracle_scan (reg0 reg1 : regressor) (rows : list (list R))
    (e : Ext) (acc : list value) : (exn + unit) * Ext * list value :=
  match rows with
  | [] => (inr tt, e, acc)
  | x :: rest =>
      match reg_predict reg0 (reshape_1 x) e with
      | (inl err, e0) => (inl err, e0, acc)
      | (inr c_0, e0) =>
          match reg_predict reg1 (reshape_1 x) e0 with
          | (inl err, e1) => (inl err, e1, acc)
          | (inr c_1, e1) =>
              oracle_scan reg0 reg1 rest e1
                          (acc ++ [int_of_bool (num_ltb c_1 c_0)])
          end
      end
  end.

(** The outcome of the loop, as the caller of [predict] receives it. *)
Definition oracle_outcome (y : loc) (s : (exn + unit) * Ext * list value)
    (w : World) : (exn + loc) * World :=
  (match fst (fst s) with inl e => inl e | inr _ => inr y end,
   set_ext (snd (fst s)) (set_heap (<[y := PyList (snd s)]> (heap w)) w)).

(** [frame y w w']: from [w] to [w'] no object other than the one at [y]
    was touched, and the random generator was not advanced. *)
Definition frame (y : loc) (w w' : World) : Prop :=
  (forall l, l <> y -> heap w' !! l = heap w !! l) /\ rng w' = rng w.

(** The label [RegOracle.predict] gives a row on which the baseline model
    predicts [c_0] and the alternative model [c_1]. *)
Definition cost_label (c_0 c_1 : R) : value := int_of_bool (num_ltb c_1 c_0).

(** [one_label_per_row f rows r]: the call returned a list with one label
    per row, each 0 or 1, the label at position [i] being [f] of the row at
    position [i]. *)
Definition one_label_per_row (f : list R -> value) (rows : list (list R))
    (r : exn + option pyobj) : Prop :=
  exists labels,
    r = inr (Some (PyList labels)) /\
    length labels = length rows /\
    (forall v, v ∈ labels -> v = VInt 0 \/ v = VInt 1) /\
    (forall i x, rows !! i = Some x -> labels !! i = Some (f x)).

(** The double [random_double] makes of two consecutive words of the
    generator, and the sample [np.random.uniform] makes of them. *)
Definition double_of_words (a b : Z) : R :=
  num_div (num_add (num_mul (num_of_Z (Z.shiftr (Z.land a 4294967295) 5))
                            (num_of_Z 67108864))
                   (num_of_Z (Z.shiftr (Z.land b 4294967295) 6)))
          (num_of_Z 9007199254740992).

Definition uniform_of_words (low high a b : Z) : R :=
  num_add (num_of_Z low)
          (num_mul (num_sub (num_of_Z high) (num_of_Z low)) (double_of_words a b)).

(** The weight vector of the instance a constructor call returned. *)
Definition constructed_coefficient (r : (exn + loc) * World)
  : option (list value) :=
  match r with
  | (inr self, w) => coefficient_of w self
  | (inl _, _) => None
  end.

(** [quiet w w']: from [w] to [w'] no model was called and no command was
    read from the input of the debugger. *)
Definition quiet (w w' : World) : Prop :=
  ext w' = ext w /\ stdin w' = stdin w.

End Methods.

(** ** A small store

    Rational numbers; the models log the matrices they are given. *)

Module Examples.

Definition log := list (list (list Q)).

Definition logging (f : list (list Q) -> exn + Q) : @regressor Q log :=
  {| reg_predict := fun x e => (f x, e ++ [x]) |}.

(** The first feature of the row. *)
Definition head_cost (x : list (list Q)) : Q :=
  match x with
  | (c :: _) :: _ => c
  | _ => 0%Q
  end.

(** The last feature of the row. *)
Definition last_cost (x : list (list Q)) : Q :=
  match x with
  | row :: _ => List.last row 0%Q
  | _ => 0%Q
  end.

(** The second feature of the row; a row without one is refused. *)
Definition second_cost_strict (x : list (list Q)) : exn + Q :=
  match x with
  | (_ :: c :: _) :: _ => inr c
  | _ => inl (ModelError "row too short"%string)
  end.

Definition head_model := logging (fun x => inr (head_cost x)).
Definition last_model := logging (fun x => inr (last_cost x)).
Definition strict_model := logging second_cost_strict.

Definition weights : list (@value Q) := [VInt 1; VInt (-1)].
Definition rows : list (list Q) := [[2; 1]; [1; 2]]%Q.
Definition ragged_rows : list (list Q) := [[2; 1]; [5]; [1; 2]]%Q.

Definition objects : gmap loc (@pyobj Q log) :=
  list_to_map
    [ (1%positive, PyList weights);
      (2%positive, LinearThreshObj 1%positive);
      (3%positive, DataFrame rows);
      (4%positive, PyList weights);
      (5%positive, RandomLinearThreshObj 4%positive);
      (6%positive, RegOracleObj head_model last_model);
      (7%positive, DataFrame []);
      (8%positive, DataFrame ragged_rows);
      (9%positive, RegOracleObj head_model strict_model) ].

(** The generator is about to emit zeros only. *)
Definition zeros : RandomState := {| mt_words := fun _ => 0; mt_pos := 0 |}.

(** A session in which the user resumes the program at the breakpoint. *)
Definition world : @World Q log :=
  {| heap := objects; ext := []; rng := zeros; stdin := [pdb_continue] |}.

(** A run without a terminal: the input of the debugger is at its end. *)
Definition batch_world : @World Q log :=
  {| heap := objects; ext := []; rng := zeros; stdin := [] |}.

End Examples.

(** ** Further reference functions *)

Section Observers.

Context {R : Type} `{Number R}.

(** The [n] samples [np.random.uniform(low, high)] draws in a row from the
    generator [g]: sample [k] is made of the words [2k] and [2k+1] after the
    current position. *)
Definition sampled_entries (low high : Z) (g : RandomState) (n : nat) : list R :=
  map (fun k => uniform_of_words low high
                  (mt_words g (mt_pos g + 2 * k)%nat)
                  (mt_words g (mt_pos g + 2 * k + 1)%nat))
      (seq 0 n).

(** A regression model that returns [f x] and records, under its name
    [tag], every matrix it is given: the state of the models is the list of
    the calls made so far. *)
Definition traced (tag : nat) (f : list (list R) -> exn + R)
  : @regressor R (list (nat * list (list R))) :=
  {| reg_predict := fun x e => (f x, e ++ [(tag, x)]) |}.

End Observers.

Module TracedExamples.

Definition calls := list (nat * list (list Q)).

Definition objects : gmap loc (@pyobj Q calls) :=
  list_to_map
    [ (1%positive, DataFrame Examples.rows);
      (2%positive, RegOracleObj (traced 0 (fun x => inr (Examples.head_cost x)))
                                (traced 1 (fun x => inr (Examples.last_cost x)))) ].

Definition world : @World Q calls :=
  {| heap := objects; ext := []; rng := Examples.zeros;
     stdin := [pdb_continue] |}.

End TracedExamples.

Module ExchangedExamples.

(** Two oracles over the same two models, in either order; on the last row
    of the data set the two costs are equal. *)
Definition rows : list (list Q) := [[2; 1]; [1; 2]; [3; 3]]%Q.

Definition objects : gmap loc (@pyobj Q Examples.log) :=
  list_to_map
    [ (1%positive, DataFrame rows);
      (2%positive, RegOracleObj Examples.head_model Examples.last_model);
      (3%positive, RegOracleObj Examples.last_model Examples.head_model) ].

Definition world : @World Q Examples.log :=
  {| heap := objects; ext := []; rng := Examples.zeros;
     stdin := [pdb_continue] |}.

End ExchangedExamples.

(** * Properties *)

Section Generic.

Context {R : Type} `{Number R} {Ext : Type}.

Abbreviation World := (@World R Ext).
Abbreviation pyobj := (@pyobj R Ext).
Abbreviation M := (@M R Ext).
Abbreviation value := (@value R).
Abbreviation regressor := (@regressor R Ext).
Abbreviation int_of_bool := (@int_of_bool R).
Abbreviation one_label_per_row := (@one_label_per_row R Ext).

Implicit Types (w : World) (h : gmap loc pyobj) (l y self X beta : loc).
Implicit Types (rows : list (list R)) (acc items : list value).

(** ** Store primitives *)

Lemma set_heap_id w : set_heap (heap w) w = w.
Proof. by destruct w. Qed.

Lemma bind_ok {A B} (c : M A) (k : A -> M B) w a w' :
  c w = (inr a, w') -> bind c k w = k a w'.
Proof. unfold bind. by intros ->. Qed.

Lemma deref_ok w l o : heap w !! l = Some o -> deref l w = (inr o, w).
Proof. unfold deref. by intros ->. Qed.

Lemma iloc_ok w X rows i x :
  heap w !! X = Some (DataFrame rows) -> rows !! i = Some x ->
  iloc X i w = (inr x, w).
Proof.
  intros HX Hi. unfold iloc. rewrite (bind_ok _ _ _ _ _ (deref_ok _ _ _ HX)).
  by rewrite Hi.
Qed.

Lemma shape0_ok w X rows :
  heap w !! X = Some (DataFrame rows) ->
  shape0 X w = (inr (Z.of_nat (length rows)), w).
Proof.
  intros HX. unfold shape0. by rewrite (bind_ok _ _ _ _ _ (deref_ok _ _ _ HX)).
Qed.

Lemma np_dot_ok w beta items x :
  heap w !! beta = Some (PyList items) ->
  np_dot beta x w =
    (if Nat.eqb (length (map to_float items)) (length x)
     then inr (dot (map to_float items) x) else inl ValueError, w).
Proof.
  intros Hb. unfold np_dot. rewrite (bind_ok _ _ _ _ _ (deref_ok _ _ _ Hb)).
  by destruct (Nat.eqb _ _).
Qed.

Lemma list_append_ok w y acc v :
  heap w !! y = Some (PyList acc) ->
  list_append y v w = (inr tt, set_heap (<[y := PyList (acc ++ [v])]> (heap w)) w).
Proof. unfold list_append. by intros ->. Qed.

Lemma range_length (n : nat) : range (Z.of_nat n) = seq 0 n.
Proof. unfold range. by rewrite Nat2Z.id. Qed.

Lemma drop_cons_inv {A} (l : list A) k x rest :
  drop k l = x :: rest -> l !! k = Some x /\ drop (S k) l = rest.
Proof.
  intros Hd. split.
  - pose proof (lookup_drop l k 0) as E. rewrite Hd, Nat.add_0_r in E. done.
  - pose proof (drop_drop l 1 k) as E. rewrite Hd, Nat.add_1_r in E. done.
Qed.

(** ** The loop of the linear-threshold classifiers *)

Lemma linear_loop a rows beta X y items : forall rest k acc w,
  drop k rows = rest ->
  heap w !! beta = Some (PyList items) ->
  a = map to_float items ->
  heap w !! X = Some (DataFrame rows) ->
  heap w !! y = Some (PyList acc) ->
  y <> beta -> y <> X ->
  for_each (seq k (length rest)) (fun i =>
      let! x_i := iloc X i in
      let! c_1 := np_dot beta x_i in
      let y_i := int_of_bool (num_ltb c_1 (num_of_Z 0)) in
      list_append y y_i) w
  = let s := linear_scan a rest acc in
    (fst s, set_heap (<[y := PyList (snd s)]> (heap w)) w).
Proof.
  induction rest as [|x rest IH]; intros k acc w Hd Hb Ha HX Hy Hyb HyX.
  - simpl. unfold ret. f_equal. rewrite insert_id; [|done]. by rewrite set_heap_id.
  - apply drop_cons_inv in Hd as [Hk Hd].
    cbn [length seq for_each linear_scan].
    unfold bind at 1.
    rewrite (bind_ok _ _ _ _ _ (iloc_ok _ _ _ _ _ HX Hk)).
    unfold bind at 1. rewrite (np_dot_ok _ _ _ _ Hb), <- Ha.
    destruct (Nat.eqb (length a) (length x)) eqn:Hlen.
    + rewrite (list_append_ok _ _ _ _ Hy).
      rewrite (IH (S k) (acc ++ [threshold_label a x])); try done.
      * cbn. by rewrite insert_insert_eq.
      * cbn. by rewrite lookup_insert_ne.
      * cbn. by rewrite lookup_insert_ne.
      * cbn. by rewrite lookup_insert_eq.
    + cbn. rewrite insert_id; [|done]. by rewrite set_heap_id.
Qed.

Lemma getattr_coefficient_ok w self c :
  heap w !! self = Some (LinearThreshObj c) \/
  heap w !! self = Some (RandomLinearThreshObj c) ->
  getattr_coefficient self w = (inr c, w).
Proof.
  intros [Hs|Hs]; unfold getattr_coefficient;
    by rewrite (bind_ok _ _ _ _ _ (deref_ok _ _ _ Hs)).
Qed.

Lemma fresh_heap w l o : heap w !! l = Some o -> fresh (dom (heap w)) <> l.
Proof.
  intros Hl Heq. apply (is_fresh (dom (heap w))). rewrite Heq.
  apply elem_of_dom. by exists o.
Qed.

Lemma fresh_insert_ne h l (o : pyobj) : fresh (dom (<[l := o]> h)) <> l.
Proof.
  intros Heq. pose proof (is_fresh (dom (<[l := o]> h))) as Hf.
  rewrite Heq in Hf. apply Hf. rewrite dom_insert_L. set_solver.
Qed.

Lemma fresh_heap_None w : heap w !! fresh (dom (heap w)) = None.
Proof. apply not_elem_of_dom, is_fresh. Qed.

(** Both classes run the same loop; the result list is a new object. *)
Lemma linear_predict_scan w self c items X rows :
  heap w !! self = Some (LinearThreshObj c) \/
  heap w !! self = Some (RandomLinearThreshObj c) ->
  heap w !! c = Some (PyList items) ->
  heap w !! X = Some (DataFrame rows) ->
  let y := fresh (dom (heap w)) in
  let s := linear_scan (map to_float items) rows [] in
  let r := (match fst s with inl e => inl e | inr _ => inr y end,
            set_heap (<[y := PyList (snd s)]> (heap w)) w) in
  LinearThresh_predict self X w = r /\ RandomLinearThresh_predict self X w = r.
Proof.
  intros Hs Hc HX y s r.
  assert (Hbody : forall w', heap w' = <[y := PyList []]> (heap w) ->
    for_each (range (Z.of_nat (length rows))) (fun i =>
      let! x_i := iloc X i in
      let! c_1 := np_dot c x_i in
      let y_i := int_of_bool (num_ltb c_1 (num_of_Z 0)) in
      list_append y y_i) w'
    = (fst s, set_heap (<[y := PyList (snd s)]> (heap w')) w')).
  { intros w' Hw'. rewrite range_length.
    apply (linear_loop (map to_float items) rows c X y items rows 0 [] w');
      rewrite ?Hw'; try done.
    - rewrite lookup_insert_ne; [done|]. by eapply fresh_heap.
    - rewrite lookup_insert_ne; [done|]. by eapply fresh_heap.
    - by rewrite lookup_insert_eq.
    - by eapply fresh_heap.
    - by eapply fresh_heap. }
  assert (Hrun :
    (let! beta := getattr_coefficient self in
     let! n := shape0 X in
     let! y0 := alloc (PyList []) in
     for_each (range n) (fun i =>
       let! x_i := iloc X i in
       let! c_1 := np_dot beta x_i in
       let y_i := int_of_bool (num_ltb c_1 (num_of_Z 0)) in
       list_append y0 y_i) ;;
     ret y0) w = r).
  { rewrite (bind_ok _ _ _ _ _ (getattr_coefficient_ok _ _ _ Hs)).
    rewrite (bind_ok _ _ _ _ _ (shape0_ok _ _ _ HX)).
    unfold bind at 1. unfold alloc at 1. fold y.
    unfold bind. rewrite Hbody; [|done].
    subst r. cbn. destruct (fst s); by rewrite insert_insert_eq. }
  split; [unfold LinearThresh_predict | unfold RandomLinearThresh_predict];
    exact Hrun.
Qed.

Lemma linear_scan_aligned a rows : forall acc,
  Forall (fun x => length x = length a) rows ->
  linear_scan a rows acc = (inr tt, acc ++ map (threshold_label a) rows).
Proof.
  induction rows as [|x rows IH]; intros acc Hall; simpl.
  - by rewrite app_nil_r.
  - inversion Hall as [|? ? Hx Hrest]; subst.
    rewrite Hx, Nat.eqb_refl, IH; [|done]. by rewrite <- app_assoc.
Qed.

(** ** The loop of the regression oracle *)

Lemma call_predict_eq reg x w :
  call_predict reg x w =
    (fst (reg_predict reg x (ext w)), set_ext (snd (reg_predict reg x (ext w))) w).
Proof. unfold call_predict. by destruct (reg_predict reg x (ext w)). Qed.

Lemma oracle_loop reg0 reg1 rows X y : forall rest k acc w,
  drop k rows = rest ->
  heap w !! X = Some (DataFrame rows) ->
  heap w !! y = Some (PyList acc) ->
  y <> X ->
  for_each (seq k (length rest)) (fun i =>
      let! x_i := iloc X i in
      let x_i := reshape_1 x_i in
      let! c_0 := call_predict reg0 x_i in
      let! c_1 := call_predict reg1 x_i in
      let y_i := int_of_bool (num_ltb c_1 c_0) in
      list_append y y_i) w
  = let s := oracle_scan reg0 reg1 rest (ext w) acc in
    (fst (fst s),
     set_ext (snd (fst s)) (set_heap (<[y := PyList (snd s)]> (heap w)) w)).
Proof.
  induction rest as [|x rest IH]; intros k acc w Hd HX Hy HyX.
  - simpl. unfold ret. f_equal. rewrite insert_id; [|done]. by destruct w.
  - apply drop_cons_inv in Hd as [Hk Hd].
    cbn [length seq for_each oracle_scan].
    unfold bind at 1.
    rewrite (bind_ok _ _ _ _ _ (iloc_ok _ _ _ _ _ HX Hk)).
    unfold bind at 1. rewrite call_predict_eq.
    destruct (reg_predict reg0 (reshape_1 x) (ext w)) as [[err|c_0] e0]; cbn [fst snd].
    { rewrite insert_id; [|done]. by destruct w. }
    unfold bind at 1. rewrite call_predict_eq. cbn [ext set_ext].
    destruct (reg_predict reg1 (reshape_1 x) e0) as [[err|c_1] e1]; cbn [fst snd].
    { rewrite insert_id; [|done]. by destruct w. }
    rewrite (list_append_ok _ _ acc); [|done].
    rewrite (IH (S k) (acc ++ [int_of_bool (num_ltb c_1 c_0)])); try done.
    + cbn. by rewrite insert_insert_eq.
    + cbn. by rewrite lookup_insert_ne.
    + cbn. by rewrite lookup_insert_eq.
Qed.

Lemma getattr_b0_ok w self b0 b1 :
  heap w !! self = Some (RegOracleObj b0 b1) -> getattr_b0 self w = (inr b0, w).
Proof.
  intros Hs. unfold getattr_b0. by rewrite (bind_ok _ _ _ _ _ (deref_ok _ _ _ Hs)).
Qed.

Lemma getattr_b1_ok w self b0 b1 :
  heap w !! self = Some (RegOracleObj b0 b1) -> getattr_b1 self w = (inr b1, w).
Proof.
  intros Hs. unfold getattr_b1. by rewrite (bind_ok _ _ _ _ _ (deref_ok _ _ _ Hs)).
Qed.

Lemma oracle_predict_no_breakpoint_scan w self b0 b1 X rows :
  heap w !! self = Some (RegOracleObj b0 b1) ->
  heap w !! X = Some (DataFrame rows) ->
  RegOracle_predict_no_breakpoint self X w =
    oracle_outcome (fresh (dom (heap w))) (oracle_scan b0 b1 rows (ext w) []) w.
Proof.
  intros Hs HX. set (y := fresh (dom (heap w))).
  unfold RegOracle_predict_no_breakpoint.
  rewrite (bind_ok _ _ _ _ _ (getattr_b0_ok _ _ _ _ Hs)).
  rewrite (bind_ok _ _ _ _ _ (getattr_b1_ok _ _ _ _ Hs)).
  rewrite (bind_ok _ _ _ _ _ (shape0_ok _ _ _ HX)).
  unfold bind at 1. unfold alloc at 1. fold y.
  unfold bind. rewrite range_length.
  rewrite (oracle_loop b0 b1 rows X y rows 0 []); try done.
  - unfold oracle_outcome. cbn.
    destruct (fst (fst _)); by rewrite insert_insert_eq.
  - cbn. rewrite lookup_insert_ne; [done|]. by eapply fresh_heap.
  - cbn. by rewrite lookup_insert_eq.
  - by eapply fresh_heap.
Qed.

(** When the debugger session is resumed, the call goes on as if the
    breakpoint were not there, one command of the input being consumed. *)
Lemma oracle_predict_resumed w self b0 b1 X rows s :
  heap w !! self = Some (RegOracleObj b0 b1) ->
  heap w !! X = Some (DataFrame rows) ->
  stdin w = pdb_continue :: s ->
  RegOracle_predict self X w =
    oracle_outcome (fresh (dom (heap w))) (oracle_scan b0 b1 rows (ext w) [])
                   (set_stdin s w).
Proof.
  intros Hs HX Hin. set (y := fresh (dom (heap w))).
  unfold RegOracle_predict.
  rewrite (bind_ok _ _ _ _ _ (getattr_b0_ok _ _ _ _ Hs)).
  rewrite (bind_ok _ _ _ _ _ (getattr_b1_ok _ _ _ _ Hs)).
  rewrite (bind_ok _ _ _ _ _ (shape0_ok _ _ _ HX)).
  unfold bind at 1. unfold alloc at 1. fold y.
  unfold bind at 1. unfold pdb_set_trace at 1. cbn [stdin set_heap]. rewrite Hin.
  unfold bind. rewrite range_length.
  rewrite (oracle_loop b0 b1 rows X y rows 0 []); try done.
  - unfold oracle_outcome. cbn.
    destruct (fst (fst _)); by rewrite insert_insert_eq.
  - cbn. rewrite lookup_insert_ne; [done|]. by eapply fresh_heap.
  - cbn. by rewrite lookup_insert_eq.
  - by eapply fresh_heap.
Qed.

Lemma coefficient_of_inv w self items :
  coefficient_of w self = Some items ->
  exists c, (heap w !! self = Some (LinearThreshObj c) \/
             heap w !! self = Some (RandomLinearThreshObj c)) /\
            heap w !! c = Some (PyList items).
Proof.
  unfold coefficient_of. intros Hc.
  destruct (heap w !! self) as [[| | |c|c]|] eqn:Hs; try done;
    destruct (heap w !! c) as [[]|] eqn:Hl; try done;
    exists c; (split; [by auto | congruence]).
Qed.

(** ** What a call leaves untouched *)

Lemma frame_refl y w : frame y w w.
Proof. by split. Qed.

Lemma frame_trans y w1 w2 w3 : frame y w1 w2 -> frame y w2 w3 -> frame y w1 w3.
Proof.
  intros [Hh1 Hr1] [Hh2 Hr2]. split; [|congruence].
  intros l Hl. rewrite Hh2, Hh1; done.
Qed.

Lemma bind_frame {A B} y (c : M A) (k : A -> M B) :
  (forall w, frame y w (snd (c w))) ->
  (forall a w, frame y w (snd (k a w))) ->
  forall w, frame y w (snd (bind c k w)).
Proof.
  intros Hc Hk w. unfold bind. specialize (Hc w).
  destruct (c w) as [[e|a] w1]; [done|].
  eapply frame_trans; [exact Hc | apply Hk].
Qed.

Lemma for_each_frame y body idx :
  (forall i w, frame y w (snd (body i w))) ->
  forall w, frame y w (snd (for_each idx body w)).
Proof.
  intros Hbody. induction idx as [|i idx IH]; intros w; cbn [for_each].
  - apply frame_refl.
  - apply bind_frame; [apply Hbody | intros _; apply IH].
Qed.

Lemma deref_same l w : snd (deref l w) = w.
Proof. unfold deref. by destruct (heap w !! l). Qed.

Lemma bind_same {A B} (c : M A) (k : A -> M B) :
  (forall w, snd (c w) = w) -> (forall a w, snd (k a w) = w) ->
  forall w, snd (bind c k w) = w.
Proof.
  intros Hc Hk w. unfold bind. specialize (Hc w).
  destruct (c w) as [[e|a] w1]; cbn in Hc; subst; [done | apply Hk].
Qed.

Lemma iloc_same X i w : snd (iloc X i w) = w.
Proof.
  apply bind_same; [apply deref_same|]. intros [|rows| | |] ?; try done.
  by destruct (rows !! i).
Qed.

Lemma shape0_same X w : snd (shape0 X w) = w.
Proof. apply bind_same; [apply deref_same|]. by intros [] ?. Qed.

Lemma np_dot_same beta x w : snd (np_dot beta x w) = w.
Proof.
  apply bind_same; [apply deref_same|]. intros [items| | | |] ?; try done.
  cbv zeta. destruct (Nat.eqb (length (map to_float items)) (length x)); done.
Qed.

Lemma getattr_coefficient_same self w : snd (getattr_coefficient self w) = w.
Proof. apply bind_same; [apply deref_same|]. by intros [] ?. Qed.

Lemma getattr_b0_same self w : snd (getattr_b0 self w) = w.
Proof. apply bind_same; [apply deref_same|]. by intros [] ?. Qed.

Lemma getattr_b1_same self w : snd (getattr_b1 self w) = w.
Proof. apply bind_same; [apply deref_same|]. by intros [] ?. Qed.

Lemma same_frame {A} y (c : M A) w : snd (c w) = w -> frame y w (snd (c w)).
Proof. intros ->. apply frame_refl. Qed.

Lemma list_append_frame y v w : frame y w (snd (list_append y v w)).
Proof.
  unfold list_append. destruct (heap w !! y) as [[]|]; try apply frame_refl.
  split; [|done]. intros l Hl. cbn. by rewrite lookup_insert_ne.
Qed.

Lemma call_predict_frame y reg x w : frame y w (snd (call_predict reg x w)).
Proof. rewrite call_predict_eq. by split. Qed.

Lemma pdb_set_trace_frame y w : frame y w (snd (pdb_set_trace w)).
Proof. unfold pdb_set_trace. by destruct (stdin w) as [|[] ?]. Qed.

Lemma alloc_frame o w : frame (fresh (dom (heap w))) w (snd (alloc o w)).
Proof. split; [|done]. intros l Hl. cbn. by rewrite lookup_insert_ne. Qed.

(** The three methods change nothing but the list they create. *)
Lemma linear_predict_frame self X w :
  frame (fresh (dom (heap w))) w (snd (LinearThresh_predict self X w)) /\
  frame (fresh (dom (heap w))) w (snd (RandomLinearThresh_predict self X w)).
Proof.
  assert (Hrun : frame (fresh (dom (heap w))) w (snd (
    (let! beta := getattr_coefficient self in
     let! n := shape0 X in
     let! y := alloc (PyList []) in
     for_each (range n) (fun i =>
       let! x_i := iloc X i in
       let! c_1 := np_dot beta x_i in
       let y_i := int_of_bool (num_ltb c_1 (num_of_Z 0)) in
       list_append y y_i) ;;
     ret y) w))).
  { unfold bind at 1. pose proof (getattr_coefficient_same self w) as E.
    destruct (getattr_coefficient self w) as [[e|beta] w1]; cbn in E; subst w1;
      [apply frame_refl|].
    unfold bind at 1. pose proof (shape0_same X w) as E.
    destruct (shape0 X w) as [[e|n] w1]; cbn in E; subst w1; [apply frame_refl|].
    unfold bind at 1. unfold alloc at 1.
    set (y := fresh (dom (heap w))). set (w1 := set_heap _ w).
    apply (frame_trans _ _ w1); [apply (alloc_frame (PyList []) w)|].
    apply bind_frame; [|intros; apply frame_refl].
    apply for_each_frame. intros i.
    apply bind_frame; [intros; apply same_frame, iloc_same|]. intros x_i.
    apply bind_frame; [intros; apply same_frame, np_dot_same|]. intros c_1.
    apply list_append_frame. }
  split; [unfold LinearThresh_predict | unfold RandomLinearThresh_predict];
    exact Hrun.
Qed.

Lemma oracle_predict_frame self X w :
  frame (fresh (dom (heap w))) w (snd (RegOracle_predict self X w)).
Proof.
  unfold RegOracle_predict.
  unfold bind at 1. pose proof (getattr_b0_same self w) as E.
  destruct (getattr_b0 self w) as [[e|reg0] w1]; cbn in E; subst w1;
    [apply frame_refl|].
  unfold bind at 1. pose proof (getattr_b1_same self w) as E.
  destruct (getattr_b1 self w) as [[e|reg1] w1]; cbn in E; subst w1;
    [apply frame_refl|].
  unfold bind at 1. pose proof (shape0_same X w) as E.
  destruct (shape0 X w) as [[e|n] w1]; cbn in E; subst w1; [apply frame_refl|].
  unfold bind at 1. unfold alloc at 1.
  set (y := fresh (dom (heap w))). set (w1 := set_heap _ w).
  apply (frame_trans _ _ w1); [apply (alloc_frame (PyList []) w)|].
  apply bind_frame; [apply pdb_set_trace_frame|]. intros _.
  apply bind_frame; [|intros; apply frame_refl].
  apply for_each_frame. intros i.
  apply bind_frame; [intros; apply same_frame, iloc_same|]. intros x_i.
  apply bind_frame; [apply call_predict_frame|]. intros c_0.
  apply bind_frame; [apply call_predict_frame|]. intros c_1.
  apply list_append_frame.
Qed.

Lemma frame_fresh_lookup w w' l o :
  frame (fresh (dom (heap w))) w w' ->
  heap w !! l = Some o -> heap w' !! l = Some o.
Proof.
  intros [Hf _] Hl. rewrite Hf; [done|].
  intros ->. by rewrite fresh_heap_None in Hl.
Qed.

Lemma frame_fresh_coefficient w w' self items :
  frame (fresh (dom (heap w))) w w' ->
  coefficient_of w self = Some items -> coefficient_of w' self = Some items.
Proof.
  intros Hf Hc. apply coefficient_of_inv in Hc as (c & Hs & Hc).
  unfold coefficient_of.
  destruct Hs as [Hs|Hs];
    by rewrite (frame_fresh_lookup _ _ _ _ Hf Hs), (frame_fresh_lookup _ _ _ _ Hf Hc).
Qed.

(** ** Results of [predict] *)

Lemma linear_predict_returned w self items X rows :
  coefficient_of w self = Some items ->
  heap w !! X = Some (DataFrame rows) ->
  let s := linear_scan (map to_float items) rows [] in
  let r := match fst s with
           | inl e => inl e
           | inr _ => inr (Some (PyList (snd s)))
           end in
  returned (LinearThresh_predict self X w) = r /\
  returned (RandomLinearThresh_predict self X w) = r.
Proof.
  intros Hc HX s r. apply coefficient_of_inv in Hc as (c & Hs & Hc).
  destruct (linear_predict_scan w self c items X rows Hs Hc HX) as [-> ->].
  fold s. subst r. unfold returned. cbn.
  destruct (fst s); [done|]. by rewrite lookup_insert_eq.
Qed.

Lemma linear_predict_aligned w self items X rows :
  coefficient_of w self = Some items ->
  heap w !! X = Some (DataFrame rows) ->
  Forall (fun x => length x = length items) rows ->
  let labels := map (threshold_label (map to_float items)) rows in
  returned (LinearThresh_predict self X w) = inr (Some (PyList labels)) /\
  returned (RandomLinearThresh_predict self X w) = inr (Some (PyList labels)).
Proof.
  intros Hc HX Hall labels.
  destruct (linear_predict_returned w self items X rows Hc HX) as [-> ->].
  rewrite linear_scan_aligned; [done|].
  eapply Forall_impl; [exact Hall|]. intros x Hx. by rewrite length_map.
Qed.

(** C1. Under a weight vector [a], [LinearThresh.predict] and
    [RandomLinearThresh.predict] give the row [x] at position [i] the label
    at position [i], which is 1 exactly when [dot a x < 0] and 0 otherwise;
    a dot product equal to zero gets label 0.  Equality of numbers is any
    test [num_eqb] under which a number equal to zero is not below zero. *)
Theorem linear_predict_label_rule
    (num_eqb : R -> R -> bool)
    (Hzero : forall c, num_eqb c (num_of_Z 0) = true ->
                       num_ltb c (num_of_Z 0) = false)
    w self items X rows
    (Hself : coefficient_of w self = Some items)
    (HX : heap w !! X = Some (DataFrame rows))
    (Hdim : Forall (fun x => length x = length items) rows) :
  let a := map to_float items in
  exists labels,
    returned (LinearThresh_predict self X w) = inr (Some (PyList labels)) /\
    returned (RandomLinearThresh_predict self X w) = inr (Some (PyList labels)) /\
    forall i x, rows !! i = Some x ->
      exists n : Z,
        labels !! i = Some (VInt n) /\
        (n = 1 <-> num_ltb (dot a x) (num_of_Z 0) = true) /\
        (n = 0 <-> num_ltb (dot a x) (num_of_Z 0) = false) /\
        (num_eqb (dot a x) (num_of_Z 0) = true -> n = 0).
Proof.
  intros a. exists (map (threshold_label a) rows).
  destruct (linear_predict_aligned w self items X rows Hself HX Hdim) as [H1 H2].
  repeat split; try done.
  intros i x Hi. unfold threshold_label, int_of_bool.
  rewrite list_lookup_fmap, Hi. cbn.
  pose proof (Hzero (dot a x)) as Hz.
  destruct (num_ltb (dot a x) (num_of_Z 0)).
  - exists 1. repeat split; try done. intros Heq. by specialize (Hz Heq).
  - exists 0. repeat split; done.
Qed.

(** C10. On a data set without rows the loop body never runs: both
    linear-threshold classifiers return, without raising, the list they have
    just created, and it is empty. *)
Theorem linear_predict_empty w self c X
    (Hself : heap w !! self = Some (LinearThreshObj c) \/
             heap w !! self = Some (RandomLinearThreshObj c))
    (HX : heap w !! X = Some (DataFrame [])) :
  exists y,
    heap w !! y = None /\
    LinearThresh_predict self X w
      = (inr y, set_heap (<[y := PyList []]> (heap w)) w) /\
    RandomLinearThresh_predict self X w
      = (inr y, set_heap (<[y := PyList []]> (heap w)) w).
Proof.
  exists (fresh (dom (heap w))). split; [apply fresh_heap_None|].
  split; [unfold LinearThresh_predict | unfold RandomLinearThresh_predict];
    rewrite (bind_ok _ _ _ _ _ (getattr_coefficient_ok _ _ _ Hself));
    rewrite (bind_ok _ _ _ _ _ (shape0_ok _ _ _ HX)); done.
Qed.

(** C4. Calling [predict] a second time on the same instance and the same
    data set gives the same outcome as the first call: the same exception,
    or a list with the same labels; and once both calls are over the two
    lists they returned are equal.  The outcome does not depend on the state
    of the random generator. *)
Theorem linear_predict_deterministic w self items X rows
    (Hself : coefficient_of w self = Some items)
    (HX : heap w !! X = Some (DataFrame rows)) :
  let r1 := LinearThresh_predict self X w in
  let r2 := LinearThresh_predict self X (snd r1) in
  let q1 := RandomLinearThresh_predict self X w in
  let q2 := RandomLinearThresh_predict self X (snd q1) in
  (returned r1 = returned r2 /\ returned (fst r1, snd r2) = returned r2) /\
  (returned q1 = returned q2 /\ returned (fst q1, snd q2) = returned q2) /\
  (forall g, returned (LinearThresh_predict self X (set_rng g w)) = returned r1 /\
             returned (RandomLinearThresh_predict self X (set_rng g w)) = returned q1).
Proof.
  intros r1 r2 q1 q2.
  destruct (linear_predict_frame self X w) as [Fr Fq]. fold r1 in Fr. fold q1 in Fq.
  pose proof (frame_fresh_coefficient _ _ _ _ Fr Hself) as Hself1.
  pose proof (frame_fresh_lookup _ _ _ _ Fr HX) as HX1.
  pose proof (frame_fresh_coefficient _ _ _ _ Fq Hself) as Hself2.
  pose proof (frame_fresh_lookup _ _ _ _ Fq HX) as HX2.
  destruct (linear_predict_returned w self items X rows Hself HX) as [Er1 Eq1].
  destruct (linear_predict_returned _ self items X rows Hself1 HX1) as [Er2 _].
  destruct (linear_predict_returned _ self items X rows Hself2 HX2) as [_ Eq2].
  fold r1 in Er1, Er2. fold r2 in Er2. fold q1 in Eq1, Eq2. fold q2 in Eq2.
  assert (Hr : returned r1 = returned r2) by congruence.
  assert (Hq : returned q1 = returned q2) by congruence.
  assert (Hrng : forall g,
    returned (LinearThresh_predict self X (set_rng g w)) = returned r1 /\
    returned (RandomLinearThresh_predict self X (set_rng g w)) = returned q1).
  { intros g.
    destruct (linear_predict_returned (set_rng g w) self items X rows Hself HX)
      as [-> ->].
    by rewrite Er1, Eq1. }
  repeat split; try done; try apply Hrng.
  - destruct (linear_predict_frame self X (snd r1)) as [F2 _]. fold r2 in F2.
    rewrite <- Hr. destruct r1 as [[e|y1] w1]; [done|]. cbn in *.
    destruct (fst (linear_scan _ _ _)); [done|]. injection Er1 as Hy1.
    by rewrite (frame_fresh_lookup _ _ _ _ F2 Hy1), Hy1.
  - destruct (linear_predict_frame self X (snd q1)) as [_ F2]. fold q2 in F2.
    rewrite <- Hq. destruct q1 as [[e|y1] w1]; [done|]. cbn in *.
    destruct (fst (linear_scan _ _ _)); [done|]. injection Eq1 as Hy1.
    by rewrite (frame_fresh_lookup _ _ _ _ F2 Hy1), Hy1.
Qed.

(** C5. A [LinearThresh] holding the weight vector [items] and a
    [RandomLinearThresh] whose sampled weight vector is [items] give the
    same outcome on every data set. *)
Theorem linear_and_random_agree w lt rlt c1 c2 items X rows
    (Hlt : heap w !! lt = Some (LinearThreshObj c1))
    (Hc1 : heap w !! c1 = Some (PyList items))
    (Hrlt : heap w !! rlt = Some (RandomLinearThreshObj c2))
    (Hc2 : heap w !! c2 = Some (PyList items))
    (HX : heap w !! X = Some (DataFrame rows)) :
  returned (LinearThresh_predict lt X w)
  = returned (RandomLinearThresh_predict rlt X w).
Proof.
  assert (H1 : coefficient_of w lt = Some items).
  { unfold coefficient_of. by rewrite Hlt, Hc1. }
  assert (H2 : coefficient_of w rlt = Some items).
  { unfold coefficient_of. by rewrite Hrlt, Hc2. }
  destruct (linear_predict_returned w lt items X rows H1 HX) as [-> _].
  by destruct (linear_predict_returned w rlt items X rows H2 HX) as [_ ->].
Qed.

(** C9. Every object that exists when [predict] is called, in particular
    the predictor itself, the list its [coefficient] attribute points to
    and the data set, is the same object with the same contents when the
    call is over, for each of the three classes. *)
Theorem predict_leaves_objects_unchanged w self X l o
    (Hl : heap w !! l = Some o) :
  heap (snd (LinearThresh_predict self X w)) !! l = Some o /\
  heap (snd (RandomLinearThresh_predict self X w)) !! l = Some o /\
  heap (snd (RegOracle_predict self X w)) !! l = Some o.
Proof.
  destruct (linear_predict_frame self X w) as [F1 F2].
  pose proof (oracle_predict_frame self X w) as F3.
  repeat split; by eapply frame_fresh_lookup.
Qed.

(** ** The regression oracle *)

Lemma oracle_scan_costs (b0 b1 : regressor) cost0 cost1 rows :
  (forall x e, fst (reg_predict b0 x e) = inr (cost0 x)) ->
  (forall x e, fst (reg_predict b1 x e) = inr (cost1 x)) ->
  forall e acc, exists e',
    oracle_scan b0 b1 rows e acc
    = (inr tt, e',
       acc ++ map (fun x => cost_label (cost0 (reshape_1 x)) (cost1 (reshape_1 x)))
                  rows).
Proof.
  intros Hb0 Hb1. induction rows as [|x rows IH]; intros e acc; simpl.
  - exists e. by rewrite app_nil_r.
  - specialize (Hb0 (reshape_1 x) e).
    destruct (reg_predict b0 (reshape_1 x) e) as [r0 e0]. cbn in Hb0. subst r0.
    specialize (Hb1 (reshape_1 x) e0).
    destruct (reg_predict b1 (reshape_1 x) e0) as [r1 e1]. cbn in Hb1. subst r1.
    destruct (IH e1 (acc ++ [int_of_bool (num_ltb (cost1 (reshape_1 x))
                                                  (cost0 (reshape_1 x)))]))
      as [e' ->].
    exists e'. by rewrite <- app_assoc.
Qed.

Lemma oracle_scan_app (b0 b1 : regressor) pre rest : forall e acc,
  oracle_scan b0 b1 (pre ++ rest) e acc =
    match oracle_scan b0 b1 pre e acc with
    | (inr _, e1, ls) => oracle_scan b0 b1 rest e1 ls
    | (inl err, e1, ls) => (inl err, e1, ls)
    end.
Proof.
  induction pre as [|x pre IH]; intros e acc; simpl; [done|].
  destruct (reg_predict b0 (reshape_1 x) e) as [[err|c_0] e0]; [done|].
  destruct (reg_predict b1 (reshape_1 x) e0) as [[err|c_1] e1]; [done|].
  apply IH.
Qed.

Lemma oracle_predict_costs w self b0 b1 cost0 cost1 X rows s :
  heap w !! self = Some (RegOracleObj b0 b1) ->
  heap w !! X = Some (DataFrame rows) ->
  stdin w = pdb_continue :: s ->
  (forall x e, fst (reg_predict b0 x e) = inr (cost0 x)) ->
  (forall x e, fst (reg_predict b1 x e) = inr (cost1 x)) ->
  returned (RegOracle_predict self X w)
  = inr (Some (PyList
      (map (fun x => cost_label (cost0 (reshape_1 x)) (cost1 (reshape_1 x))) rows))).
Proof.
  intros Hs HX Hin Hb0 Hb1.
  rewrite (oracle_predict_resumed w self b0 b1 X rows s Hs HX Hin).
  destruct (oracle_scan_costs b0 b1 cost0 cost1 rows Hb0 Hb1 (ext w) []) as [e' ->].
  unfold oracle_outcome, returned. cbn. by rewrite lookup_insert_eq.
Qed.

Lemma one_label_per_row_map (f : list R -> value) rows :
  (forall x, f x = VInt 0 \/ f x = VInt 1) ->
  one_label_per_row f rows (inr (Some (PyList (map f rows)))).
Proof.
  intros Hf. exists (map f rows). repeat split.
  - apply length_map.
  - intros v Hv. apply list_elem_of_fmap in Hv as (x & -> & _). apply Hf.
  - intros i x Hi. by rewrite list_lookup_fmap, Hi.
Qed.

Lemma int_of_bool_01 b : int_of_bool b = VInt 0 \/ int_of_bool b = VInt 1.
Proof. destruct b; [by right | by left]. Qed.

Lemma oracle_scan_error_inv (b0 b1 : regressor) rows : forall e acc err e2 ls,
  oracle_scan b0 b1 rows e acc = (inl err, e2, ls) ->
  exists pre x post e1,
    rows = pre ++ x :: post /\
    oracle_scan b0 b1 pre e acc = (inr tt, e1, ls) /\
    (reg_predict b0 (reshape_1 x) e1 = (inl err, e2) \/
     exists c_0 e0, reg_predict b0 (reshape_1 x) e1 = (inr c_0, e0) /\
                    reg_predict b1 (reshape_1 x) e0 = (inl err, e2)).
Proof.
  induction rows as [|x rows IH]; intros e acc err e2 ls Hscan; [done|].
  cbn [oracle_scan] in Hscan.
  destruct (reg_predict b0 (reshape_1 x) e) as [[err0|c_0] e0] eqn:H0.
  { injection Hscan as -> -> ->. exists [], x, rows, e. repeat split; by left. }
  destruct (reg_predict b1 (reshape_1 x) e0) as [[err1|c_1] e1] eqn:H1.
  { injection Hscan as -> -> ->. exists [], x, rows, e.
    repeat split; right. by exists c_0, e0. }
  apply IH in Hscan as (pre & x' & post & e' & -> & Hpre & Hraise).
  exists (x :: pre), x', post, e'. repeat split; [|done].
  cbn [oracle_scan]. by rewrite H0, H1.
Qed.

(** C8. [RegOracle.predict] hands every row to the models unchecked, and
    the errors of its loop are those of the models.  With the debugger
    session resumed, [predict] raises [err], returning no list and leaving
    the models in state [e2], exactly when there is a row [x] such that the
    rows before it went through without error and, on [x], the baseline
    model raises [err], or the baseline model returns and the alternative
    model raises [err], [e2] being the state that failing call left: none
    of the rows after [x] is passed to a model, whatever they are. *)
Theorem oracle_predict_first_error
    w self b0 b1 X rows s err e2
    (Hself : heap w !! self = Some (RegOracleObj b0 b1))
    (HX : heap w !! X = Some (DataFrame rows))
    (Hin : stdin w = pdb_continue :: s) :
  let r := RegOracle_predict self X w in
  (fst r = inl err /\ ext (snd r) = e2) <->
  exists pre x post e1 ls,
    rows = pre ++ x :: post /\
    oracle_scan b0 b1 pre (ext w) [] = (inr tt, e1, ls) /\
    (reg_predict b0 (reshape_1 x) e1 = (inl err, e2) \/
     exists c_0 e0, reg_predict b0 (reshape_1 x) e1 = (inr c_0, e0) /\
                    reg_predict b1 (reshape_1 x) e0 = (inl err, e2)).
Proof.
  intros r. subst r.
  rewrite (oracle_predict_resumed w self b0 b1 X rows s Hself HX Hin).
  unfold oracle_outcome. cbn [fst snd ext set_ext]. split.
  - intros [Herr He2].
    destruct (oracle_scan b0 b1 rows (ext w) []) as [[[err'|[]] e'] ls] eqn:Hscan;
      cbn in Herr, He2; [|done].
    injection Herr as ->. subst e'.
    apply oracle_scan_error_inv in Hscan as (pre & x & post & e1 & ? & ? & ?).
    by exists pre, x, post, e1, ls.
  - intros (pre & x & post & e1 & ls & -> & Hpre & Hraise).
    rewrite oracle_scan_app, Hpre. cbn [oracle_scan].
    destruct Hraise as [-> | (c_0 & e0 & -> & ->)]; done.
Qed.

(** At a breakpoint the user quits, or the debugger has no input left:
    the call raises [BdbQuit]. *)
Lemma oracle_predict_quit w self b0 b1 X rows :
  heap w !! self = Some (RegOracleObj b0 b1) ->
  heap w !! X = Some (DataFrame rows) ->
  stdin w = [] \/ (exists s, stdin w = pdb_quit :: s) ->
  fst (RegOracle_predict self X w) = inl BdbQuit.
Proof.
  intros Hs HX Hin. unfold RegOracle_predict.
  rewrite (bind_ok _ _ _ _ _ (getattr_b0_ok _ _ _ _ Hs)).
  rewrite (bind_ok _ _ _ _ _ (getattr_b1_ok _ _ _ _ Hs)).
  rewrite (bind_ok _ _ _ _ _ (shape0_ok _ _ _ HX)).
  unfold bind at 1. unfold alloc at 1. cbv zeta.
  unfold bind at 1. unfold pdb_set_trace at 1. cbn [stdin set_heap].
  by destruct Hin as [-> | [s ->]].
Qed.

(** ** Construction *)

Lemma LinearThresh_init_coefficient w d items :
  heap w !! d = Some (PyList items) ->
  constructed_coefficient (LinearThresh_init d w) = Some items.
Proof.
  intros Hd. unfold LinearThresh_init, alloc, constructed_coefficient, coefficient_of.
  cbn. rewrite lookup_insert_eq, lookup_insert_ne; [by rewrite Hd|].
  by eapply fresh_heap.
Qed.

Lemma RegOracle_init_attributes w b0 b1 :
  exists self w',
    RegOracle_init b0 b1 w = (inr self, w') /\
    heap w !! self = None /\
    getattr_b0 self w' = (inr b0, w') /\ getattr_b1 self w' = (inr b1, w').
Proof.
  eexists _, _. split; [done|]. split; [apply fresh_heap_None|].
  split; [eapply getattr_b0_ok | eapply getattr_b1_ok]; cbn;
    by rewrite lookup_insert_eq.
Qed.


Lemma np_random_uniform_eq low high w :
  np_random_uniform low high w =
    (inr (uniform_of_words low high (mt_words (rng w) (mt_pos (rng w)))
                                    (mt_words (rng w) (S (mt_pos (rng w))))),
     set_rng {| mt_words := mt_words (rng w);
                mt_pos := S (S (mt_pos (rng w))) |} w).
Proof. done. Qed.

Lemma list_comprehension_uniform (P : R -> Prop) low high :
  (forall a b, P (uniform_of_words low high a b)) ->
  forall idx w, exists ws,
    list_comprehension idx (fun _ => np_random_uniform low high) w
    = (inr ws,
       set_rng {| mt_words := mt_words (rng w);
                  mt_pos := (mt_pos (rng w) + 2 * length idx)%nat |} w) /\
    length ws = length idx /\ Forall P ws.
Proof.
  intros HP. induction idx as [|i idx IH]; intros w.
  - exists []. repeat split; [|done]. cbn. unfold ret. f_equal.
    rewrite Nat.add_0_r. by destruct w as [? ? [] ?].
  - cbn [list_comprehension].
    rewrite (bind_ok _ _ _ _ _ (np_random_uniform_eq low high w)).
    destruct (IH (set_rng {| mt_words := mt_words (rng w);
                             mt_pos := S (S (mt_pos (rng w))) |} w))
      as (ws & Hws & Hlen & Hall).
    rewrite (bind_ok _ _ _ _ _ Hws).
    eexists. repeat split.
    + unfold ret. f_equal. cbn. unfold set_rng. cbn. do 2 f_equal. lia.
    + cbn. by rewrite Hlen.
    + constructor; [apply HP | done].
Qed.

Lemma RandomLinearThresh_init_sampled (P : R -> Prop) d w :
  (forall a b, P (uniform_of_words (-1) 1 a b)) ->
  let r := RandomLinearThresh_init d w in
  (exists ws, constructed_coefficient r = Some (map VFloat ws) /\
              length ws = Z.to_nat d /\ Forall P ws) /\
  mt_pos (rng (snd r)) = (mt_pos (rng w) + 2 * Z.to_nat d)%nat.
Proof.
  intros HP r. subst r. unfold RandomLinearThresh_init.
  destruct (list_comprehension_uniform P (-1) 1 HP (range d) w)
    as (ws & Hws & Hlen & Hall).
  rewrite (bind_ok _ _ _ _ _ Hws).
  unfold range in Hlen. rewrite length_seq in Hlen.
  unfold bind, alloc. cbn. split.
  - exists ws. repeat split; [|done..].
    unfold coefficient_of. cbn. rewrite lookup_insert_eq.
    rewrite lookup_insert_ne, lookup_insert_eq; [done|].
    apply fresh_insert_ne.
  - unfold range. by rewrite length_seq.
Qed.

End Generic.

(** ** Rational numbers *)

Section Rationals.

Context {Ext : Type}.

Lemma Q_eqb_not_ltb (c d : Q) : Qeq_bool c d = true -> num_ltb c d = false.
Proof.
  intros Heq. apply Qeq_bool_iff in Heq. cbn.
  apply negb_false_iff, Qle_bool_iff. rewrite Heq. apply Qle_refl.
Qed.

Lemma shiftr5_bounds a : 0 <= Z.shiftr (Z.land a 4294967295) 5 < 134217728.
Proof.
  change 4294967295 with (Z.ones 32). rewrite Z.land_ones by lia.
  rewrite Z.shiftr_div_pow2 by lia.
  pose proof (Z.mod_pos_bound a (2 ^ 32) ltac:(lia)) as Hb.
  change (2 ^ 5) with 32. change (2 ^ 32) with 4294967296 in *.
  split; [apply Z.div_pos; lia | apply Z.div_lt_upper_bound; lia].
Qed.

Lemma shiftr6_bounds a : 0 <= Z.shiftr (Z.land a 4294967295) 6 < 67108864.
Proof.
  change 4294967295 with (Z.ones 32). rewrite Z.land_ones by lia.
  rewrite Z.shiftr_div_pow2 by lia.
  pose proof (Z.mod_pos_bound a (2 ^ 32) ltac:(lia)) as Hb.
  change (2 ^ 6) with 64. change (2 ^ 32) with 4294967296 in *.
  split; [apply Z.div_pos; lia | apply Z.div_lt_upper_bound; lia].
Qed.

(** A sample of [np.random.uniform(-1, 1)] can be -1 and is below 1. *)
Lemma uniform_of_words_bounds (a b : Z) :
  (-1 <= uniform_of_words (-1) 1 a b)%Q /\ (uniform_of_words (-1) 1 a b < 1)%Q.
Proof.
  unfold uniform_of_words, double_of_words. cbn [num_of_Z num_add num_sub num_mul num_div Number_Q].
  pose proof (shiftr5_bounds a) as Ha. pose proof (shiftr6_bounds b) as Hb.
  generalize dependent (Z.shiftr (Z.land a 4294967295) 5).
  generalize dependent (Z.shiftr (Z.land b 4294967295) 6).
  intros B HB A HA.
  unfold Qle, Qlt, Qdiv, Qinv, Qminus, Qplus, Qmult, Qopp, inject_Z. cbn.
  split; lia.
Qed.

(** C6, as amended. [RandomLinearThresh(d)] consumes two words of the
    generator for each of the [d] entries of the weight vector it stores,
    every entry lies in the half-open interval from -1 (included) to 1
    (excluded), and [predict] leaves the generator where it was. *)
Theorem RandomLinearThresh_init_weights (w : @World Q Ext) (d : Z) :
  let r := RandomLinearThresh_init d w in
  (exists ws : list Q,
     constructed_coefficient r = Some (map VFloat ws) /\
     length ws = Z.to_nat d /\
     Forall (fun x => (-1 <= x)%Q /\ (x < 1)%Q) ws) /\
  mt_pos (rng (snd r)) = (mt_pos (rng w) + 2 * Z.to_nat d)%nat /\
  (forall self X (w0 : @World Q Ext),
     rng (snd (RandomLinearThresh_predict self X w0)) = rng w0).
Proof.
  intros r.
  destruct (RandomLinearThresh_init_sampled
              (fun x => (-1 <= x)%Q /\ (x < 1)%Q) d w uniform_of_words_bounds)
    as [Hws Hpos].
  repeat split; try done.
  intros self X w0. by destruct (linear_predict_frame self X w0) as [_ [_ ->]].
Qed.

End Rationals.

(** ** The methods on a small store *)

Example linear_predict_example :
  returned (LinearThresh_predict 2%positive 3%positive Examples.world)
  = inr (Some (PyList [VInt 0; VInt 1])).
Proof. vm_compute. reflexivity. Qed.

Example random_linear_predict_example :
  returned (RandomLinearThresh_predict 5%positive 3%positive Examples.world)
  = inr (Some (PyList [VInt 0; VInt 1])).
Proof. vm_compute. reflexivity. Qed.

Example linear_predict_ragged_example :
  returned (LinearThresh_predict 2%positive 8%positive Examples.world)
  = inl ValueError.
Proof. vm_compute. reflexivity. Qed.

Example oracle_predict_example :
  returned (RegOracle_predict 6%positive 3%positive Examples.world)
  = inr (Some (PyList [VInt 1; VInt 0])).
Proof. vm_compute. reflexivity. Qed.

Example oracle_predict_ragged_example :
  let r := RegOracle_predict 9%positive 8%positive Examples.world in
  fst r = inl (ModelError "row too short") /\
  ext (snd r) = [[[2; 1]]; [[2; 1]]; [[5]]; [[5]]]%Q.
Proof. vm_compute. split; reflexivity. Qed.

(** C6, as the claim has it, fails: when the generator emits two zero
    words the sampled entry is -1, which is not strictly above -1. *)
Lemma RandomLinearThresh_init_reaches_minus_one :
  ~ (exists ws : list Q,
       constructed_coefficient (RandomLinearThresh_init 1 Examples.world)
         = Some (map VFloat ws) /\
       Forall (fun x => (-1 < x)%Q /\ (x < 1)%Q) ws).
Proof.
  intros (ws & Hc & Hall). vm_compute in Hc.
  destruct ws as [|x [|? ?]]; try discriminate.
  injection Hc as <-. inversion Hall as [|? ? [Hlow _] _]. by vm_compute in Hlow.
Qed.

(** C7. In a run whose debugger input is at its end, [RegOracle.predict]
    raises [BdbQuit] at the breakpoint, where the same method without the
    breakpoint returns the labels of the two rows. *)
Theorem oracle_predict_breakpoint_aborts :
  fst (RegOracle_predict 6%positive 3%positive Examples.batch_world)
    = inl BdbQuit /\
  returned (RegOracle_predict_no_breakpoint 6%positive 3%positive
                                            Examples.batch_world)
    = inr (Some (PyList [VInt 1; VInt 0])).
Proof. split; vm_compute; reflexivity. Qed.

(** C2. In a run whose debugger input is at its end no row gets a label
    from [RegOracle.predict]: both models return a cost on the first row,
    the alternative one the lower, so that the row is owed label 1, and the
    call returns no list at all.  On the same store, with the session
    resumed, the rows get the labels 1 and 0. *)
Theorem oracle_predict_assigns_no_label_at_breakpoint :
  (forall e, fst (reg_predict Examples.head_model (reshape_1 [2; 1]%Q) e)
             = inr 2%Q) /\
  (forall e, fst (reg_predict Examples.last_model (reshape_1 [2; 1]%Q) e)
             = inr 1%Q) /\
  num_ltb 1%Q 2%Q = true /\
  ~ (exists labels,
       returned (RegOracle_predict 6%positive 3%positive Examples.batch_world)
       = inr (Some (PyList labels))) /\
  returned (RegOracle_predict 6%positive 3%positive Examples.world)
    = inr (Some (PyList [VInt 1; VInt 0])).
Proof.
  repeat split; try reflexivity.
  intros [labels Hret]. vm_compute in Hret. discriminate.
Qed.

(** C3. In a run whose debugger input is at its end, on a data set of two
    rows, [LinearThresh.predict] and [RandomLinearThresh.predict] return
    two labels, each 0 or 1, the label at position [i] computed from the
    row at position [i], and [RegOracle.predict] returns no list: it raises
    [BdbQuit]. *)
Theorem oracle_predict_returns_no_list_at_breakpoint :
  let f_linear := threshold_label (map to_float Examples.weights) in
  one_label_per_row f_linear Examples.rows
    (returned (LinearThresh_predict 2%positive 3%positive
                                    Examples.batch_world)) /\
  one_label_per_row f_linear Examples.rows
    (returned (RandomLinearThresh_predict 5%positive 3%positive
                                          Examples.batch_world)) /\
  returned (RegOracle_predict 6%positive 3%positive Examples.batch_world)
    = inl BdbQuit /\
  forall f,
    ~ one_label_per_row f Examples.rows
        (returned (RegOracle_predict 6%positive 3%positive
                                     Examples.batch_world)).
Proof.
  intros f_linear.
  assert (Hdim : Forall (fun x : list Q => length x = length Examples.weights)
                        Examples.rows) by repeat constructor.
  destruct (linear_predict_aligned Examples.batch_world 2%positive
              Examples.weights 3%positive Examples.rows eq_refl eq_refl Hdim)
    as [-> _].
  destruct (linear_predict_aligned Examples.batch_world 5%positive
              Examples.weights 3%positive Examples.rows eq_refl eq_refl Hdim)
    as [_ ->].
  assert (Hquit : returned (RegOracle_predict 6%positive 3%positive
                                              Examples.batch_world)
                  = inl BdbQuit) by (vm_compute; reflexivity).
  repeat split; try done;
    try (apply one_label_per_row_map; intros x; apply int_of_bool_01).
  intros f (labels & Hret & _). rewrite Hquit in Hret. discriminate.
Qed.

(** ** The theorems at the small store *)

Lemma linear_predict_label_rule_witness :
  let a := map to_float Examples.weights in
  exists labels,
    returned (LinearThresh_predict 2%positive 3%positive Examples.world)
      = inr (Some (PyList labels)) /\
    returned (RandomLinearThresh_predict 2%positive 3%positive Examples.world)
      = inr (Some (PyList labels)) /\
    forall i x, Examples.rows !! i = Some x ->
      exists n : Z,
        labels !! i = Some (VInt n) /\
        (n = 1 <-> num_ltb (dot a x) (num_of_Z 0) = true) /\
        (n = 0 <-> num_ltb (dot a x) (num_of_Z 0) = false) /\
        (Qeq_bool (dot a x) (num_of_Z 0) = true -> n = 0).
Proof.
  apply (linear_predict_label_rule Qeq_bool
           (fun c => Q_eqb_not_ltb c (num_of_Z 0))
           Examples.world 2%positive Examples.weights 3%positive Examples.rows).
  - reflexivity.
  - reflexivity.
  - repeat constructor.
Defined.

Lemma linear_predict_deterministic_witness :
  let r1 := LinearThresh_predict 2%positive 8%positive Examples.world in
  let r2 := LinearThresh_predict 2%positive 8%positive (snd r1) in
  let q1 := RandomLinearThresh_predict 2%positive 8%positive Examples.world in
  let q2 := RandomLinearThresh_predict 2%positive 8%positive (snd q1) in
  (returned r1 = returned r2 /\ returned (fst r1, snd r2) = returned r2) /\
  (returned q1 = returned q2 /\ returned (fst q1, snd q2) = returned q2) /\
  (forall g,
     returned (LinearThresh_predict 2%positive 8%positive
                                    (set_rng g Examples.world)) = returned r1 /\
     returned (RandomLinearThresh_predict 2%positive 8%positive
                                          (set_rng g Examples.world)) = returned q1).
Proof.
  apply (linear_predict_deterministic
           Examples.world 2%positive Examples.weights 8%positive
           Examples.ragged_rows).
  - reflexivity.
  - reflexivity.
Defined.

Lemma linear_and_random_agree_witness :
  returned (LinearThresh_predict 2%positive 3%positive Examples.world)
  = returned (RandomLinearThresh_predict 5%positive 3%positive Examples.world).
Proof.
  apply (linear_and_random_agree
           Examples.world 2%positive 5%positive 1%positive 4%positive
           Examples.weights 3%positive Examples.rows); reflexivity.
Defined.

Lemma oracle_predict_first_error_witness :
  let r := RegOracle_predict 9%positive 8%positive Examples.world in
  fst r = inl (ModelError "row too short") /\
  ext (snd r) = [[[2; 1]]; [[2; 1]]; [[5]]; [[5]]]%Q.
Proof.
  apply (oracle_predict_first_error
           Examples.world 9%positive Examples.head_model Examples.strict_model
           8%positive Examples.ragged_rows []).
  - reflexivity.
  - reflexivity.
  - reflexivity.
  - exists [[2; 1]]%Q, [5]%Q, [[1; 2]]%Q, [[[2; 1]]; [[2; 1]]]%Q, [VInt 1].
    split; [reflexivity|]. split; [reflexivity|].
    right. exists 5%Q, [[[2; 1]]; [[2; 1]]; [[5]]]%Q. split; reflexivity.
Defined.

Lemma predict_leaves_objects_unchanged_witness :
  heap (snd (LinearThresh_predict 2%positive 3%positive Examples.world))
    !! 1%positive = Some (PyList Examples.weights) /\
  heap (snd (RandomLinearThresh_predict 2%positive 3%positive Examples.world))
    !! 1%positive = Some (PyList Examples.weights) /\
  heap (snd (RegOracle_predict 2%positive 3%positive Examples.world))
    !! 1%positive = Some (PyList Examples.weights).
Proof.
  apply (predict_leaves_objects_unchanged
           Examples.world 2%positive 3%positive 1%positive
           (PyList Examples.weights)).
  reflexivity.
Defined.

Lemma linear_predict_empty_witness :
  exists y,
    heap Examples.world !! y = None /\
    LinearThresh_predict 2%positive 7%positive Examples.world
      = (inr y, set_heap (<[y := PyList []]> (heap Examples.world))
                         Examples.world) /\
    RandomLinearThresh_predict 2%positive 7%positive Examples.world
      = (inr y, set_heap (<[y := PyList []]> (heap Examples.world))
                         Examples.world).
Proof.
  apply (linear_predict_empty Examples.world 2%positive 1%positive 7%positive).
  - left. reflexivity.
  - reflexivity.
Defined.

(** * Further properties *)

Section Further.

Context {R : Type} `{Number R} {Ext : Type}.

Abbreviation World := (@World R Ext).
Abbreviation pyobj := (@pyobj R Ext).
Abbreviation M := (@M R Ext).
Abbreviation value := (@value R).
Abbreviation regressor := (@regressor R Ext).

Implicit Types (w : World) (h : gmap loc pyobj) (l y self X beta : loc).
Implicit Types (rows : list (list R)) (acc items : list value).

(** ** Constructors *)

Lemma sampled_entries_S low high (g : RandomState) n :
  sampled_entries low high g (S n)
  = uniform_of_words low high (mt_words g (mt_pos g)) (mt_words g (S (mt_pos g)))
    :: sampled_entries low high
         {| mt_words := mt_words g; mt_pos := S (S (mt_pos g)) |} n.
Proof.
  unfold sampled_entries. cbn [seq map mt_words mt_pos]. f_equal.
  - f_equal; f_equal; lia.
  - rewrite <- seq_shift, map_map. apply map_ext. intros k.
    f_equal; f_equal; lia.
Qed.

Lemma list_comprehension_entries low high : forall idx w,
  list_comprehension idx (fun _ => np_random_uniform low high) w
  = (inr (sampled_entries low high (rng w) (length idx)),
     set_rng {| mt_words := mt_words (rng w);
                mt_pos := (mt_pos (rng w) + 2 * length idx)%nat |} w).
Proof.
  induction idx as [|i idx IH]; intros w.
  - cbn. unfold ret. f_equal. rewrite Nat.add_0_r. by destruct w as [? ? [] ?].
  - cbn [list_comprehension length].
    rewrite (bind_ok _ _ _ _ _ (np_random_uniform_eq low high w)).
    rewrite (bind_ok _ _ _ _ _ (IH _)).
    rewrite sampled_entries_S. unfold ret. cbn. unfold set_rng. cbn.
    do 3 f_equal. lia.
Qed.

Lemma sampled_entries_length low high (g : RandomState) n :
  length (sampled_entries (R := R) low high g n) = n.
Proof. unfold sampled_entries. by rewrite length_map, length_seq. Qed.

Lemma to_float_VFloat (ws : list R) : map to_float (map VFloat ws) = ws.
Proof. rewrite map_map. apply map_id. Qed.

Lemma RandomLinearThresh_init_eq d w :
  let ws := sampled_entries (-1) 1 (rng w) (Z.to_nat d) in
  let c := fresh (dom (heap w)) in
  let h1 := <[c := PyList (map VFloat ws)]> (heap w) in
  let self := fresh (dom h1) in
  RandomLinearThresh_init d w
  = (inr self,
     set_heap (<[self := RandomLinearThreshObj c]> h1)
       (set_rng {| mt_words := mt_words (rng w);
                   mt_pos := (mt_pos (rng w) + 2 * Z.to_nat d)%nat |} w)).
Proof.
  intros ws c h1 self. unfold RandomLinearThresh_init.
  rewrite (bind_ok _ _ _ _ _ (list_comprehension_entries (-1) 1 (range d) w)).
  unfold range. rewrite length_seq. done.
Qed.

(** X1. The weight vector [RandomLinearThresh(d)] stores is a function of
    [d] and of the state of the generator alone: entry [k] is the sample
    made of the words [2k] and [2k+1] the generator emits next.  From the
    same generator state the constructor therefore gives the same weights,
    whatever else the store holds. *)
Theorem RandomLinearThresh_init_entries w d :
  constructed_coefficient (RandomLinearThresh_init d w)
    = Some (map VFloat (sampled_entries (-1) 1 (rng w) (Z.to_nat d))) /\
  forall w2 : World,
    constructed_coefficient (RandomLinearThresh_init d (set_rng (rng w) w2))
    = constructed_coefficient (RandomLinearThresh_init d w).
Proof.
  assert (Hc : forall w0 : World,
    constructed_coefficient (RandomLinearThresh_init d w0)
    = Some (map VFloat (sampled_entries (-1) 1 (rng w0) (Z.to_nat d)))).
  { intros w0. rewrite RandomLinearThresh_init_eq.
    unfold constructed_coefficient, coefficient_of. cbn.
    rewrite lookup_insert_eq, lookup_insert_ne, lookup_insert_eq; [done|].
    apply fresh_insert_ne. }
  split; [apply Hc|]. intros w2. by rewrite !Hc.
Qed.

(** X2. [RandomLinearThresh(d)] creates exactly two objects, the list of
    the sampled weights and the instance whose [coefficient] attribute
    points to it, at references no object had before: the store after the
    call is the store of before with these two objects added, so that every
    other object is kept as it was, and neither the models nor the input of
    the debugger are touched. *)
Theorem RandomLinearThresh_init_allocates w d :
  let r := RandomLinearThresh_init d w in
  let ws := sampled_entries (-1) 1 (rng w) (Z.to_nat d) in
  exists self c,
    fst r = inr self /\
    heap w !! self = None /\ heap w !! c = None /\ self <> c /\
    heap (snd r)
      = <[self := RandomLinearThreshObj c]>
          (<[c := PyList (map VFloat ws)]> (heap w)) /\
    heap (snd r) !! self = Some (RandomLinearThreshObj c) /\
    heap (snd r) !! c = Some (PyList (map VFloat ws)) /\
    size (heap (snd r)) = S (S (size (heap w))) /\
    heap w ⊆ heap (snd r) /\
    ext (snd r) = ext w /\ stdin (snd r) = stdin w.
Proof.
  intros r ws. subst r. rewrite RandomLinearThresh_init_eq. fold ws. cbn.
  set (c := fresh (dom (heap w))).
  set (h1 := <[c := PyList (map VFloat ws)]> (heap w)).
  set (self := fresh (dom h1)).
  assert (Hc : heap w !! c = None) by apply fresh_heap_None.
  assert (Hne : self <> c) by apply fresh_insert_ne.
  assert (Hs1 : h1 !! self = None) by apply not_elem_of_dom, is_fresh.
  assert (Hs : heap w !! self = None).
  { subst h1. by rewrite lookup_insert_ne in Hs1. }
  exists self, c. repeat split; try done.
  - by rewrite lookup_insert_eq.
  - subst h1. by rewrite lookup_insert_ne, lookup_insert_eq.
  - rewrite map_size_insert_None by done. subst h1.
    by rewrite map_size_insert_None.
  - etrans; [by apply (insert_subseteq (heap w) c) | by apply insert_subseteq].
Qed.

(** X3. [LinearThresh(d)] keeps the reference [d] it is given, not a copy
    of the list: the instance is a new object whose weights are the contents
    of [d], and appending to [d] afterwards changes the weights of the
    instance. *)
Theorem LinearThresh_init_aliases_argument w (d : loc) items v
    (Hd : heap w !! d = Some (PyList items)) :
  let r := LinearThresh_init d w in
  exists self,
    fst r = inr self /\
    heap w !! self = None /\
    heap (snd r) !! self = Some (LinearThreshObj d) /\
    coefficient_of (snd r) self = Some items /\
    coefficient_of (snd (list_append d v (snd r))) self = Some (items ++ [v]).
Proof.
  intros r. subst r. unfold LinearThresh_init, alloc. cbn.
  set (self := fresh (dom (heap w))).
  assert (Hne : self <> d) by by eapply fresh_heap.
  exists self. repeat split.
  - apply fresh_heap_None.
  - by rewrite lookup_insert_eq.
  - unfold coefficient_of. cbn.
    by rewrite lookup_insert_eq, lookup_insert_ne, Hd.
  - unfold list_append, coefficient_of. cbn.
    rewrite (lookup_insert_ne _ self d) by done. rewrite Hd. cbn.
    rewrite (lookup_insert_ne _ d self) by done.
    by rewrite lookup_insert_eq, lookup_insert_eq.
Qed.

(** ** Construction followed by prediction *)

(** X4. [LinearThresh(d).predict(X)]: for a list [d] of weights and a data
    set whose rows have as many entries as [d], the labels returned are
    those of the threshold rule under the contents of [d], row by row. *)
Theorem LinearThresh_construct_then_predict w (d : loc) items X rows
    (Hd : heap w !! d = Some (PyList items))
    (HX : heap w !! X = Some (DataFrame rows))
    (Hdim : Forall (fun x => length x = length items) rows) :
  let r := LinearThresh_init d w in
  exists self,
    fst r = inr self /\
    returned (LinearThresh_predict self X (snd r))
    = inr (Some (PyList (map (threshold_label (map to_float items)) rows))).
Proof.
  intros r. subst r. unfold LinearThresh_init, alloc. cbn.
  set (self := fresh (dom (heap w))). exists self. split; [done|].
  eapply (linear_predict_aligned _ self items X rows); [| |done].
  - unfold coefficient_of. cbn.
    rewrite lookup_insert_eq, lookup_insert_ne, Hd; [done|]. by eapply fresh_heap.
  - cbn. rewrite lookup_insert_ne; [done|]. by eapply fresh_heap.
Qed.

(** X5. [RandomLinearThresh(d).predict(X)]: on a data set whose rows have
    [d] entries the call returns one label per row, by the threshold rule
    under the weights sampled from the generator at construction. *)
Theorem RandomLinearThresh_construct_then_predict w (d : Z) X rows
    (HX : heap w !! X = Some (DataFrame rows))
    (Hdim : Forall (fun x => length x = Z.to_nat d) rows) :
  let r := RandomLinearThresh_init d w in
  let ws := sampled_entries (-1) 1 (rng w) (Z.to_nat d) in
  exists self,
    fst r = inr self /\
    returned (RandomLinearThresh_predict self X (snd r))
    = inr (Some (PyList (map (threshold_label ws) rows))).
Proof.
  intros r ws. subst r. rewrite RandomLinearThresh_init_eq. fold ws.
  cbn [fst snd].
  set (c := fresh (dom (heap w))).
  set (h1 := <[c := PyList (map VFloat ws)]> (heap w)).
  set (self := fresh (dom h1)).
  set (w1 := set_heap _ _).
  exists self. split; [done|].
  assert (Hne : self <> c) by apply fresh_insert_ne.
  assert (Hs1 : h1 !! self = None) by apply not_elem_of_dom, is_fresh.
  assert (Hc : coefficient_of w1 self = Some (map VFloat ws)).
  { unfold coefficient_of. subst w1 h1. cbn.
    by rewrite lookup_insert_eq, lookup_insert_ne, lookup_insert_eq. }
  assert (HX1 : heap w1 !! X = Some (DataFrame rows)).
  { assert (HXh : h1 !! X = Some (DataFrame rows)).
    { subst h1. rewrite lookup_insert_ne; [done|]. by eapply fresh_heap. }
    subst w1. cbn. rewrite lookup_insert_ne; [done|]. congruence. }
  assert (Hdim1 : Forall (fun x => length x = length (map VFloat ws)) rows).
  { eapply Forall_impl; [exact Hdim|]. intros x ->.
    subst ws. by rewrite length_map, sampled_entries_length. }
  destruct (linear_predict_aligned w1 self _ X rows Hc HX1 Hdim1) as [_ Hp].
  by rewrite to_float_VFloat in Hp.
Qed.

(** X6. [RegOracle(b0, b1).predict(X)]: the first argument of the
    constructor is the baseline.  With models whose cost is a function of
    the row and a resumed debugger session, row [x] gets label 1 exactly
    when the cost of the second model is below that of the first. *)
Theorem RegOracle_construct_then_predict
    w (b0 b1 : regressor) cost0 cost1 X rows s
    (HX : heap w !! X = Some (DataFrame rows))
    (Hin : stdin w = pdb_continue :: s)
    (Hb0 : forall x e, fst (reg_predict b0 x e) = inr (cost0 x))
    (Hb1 : forall x e, fst (reg_predict b1 x e) = inr (cost1 x)) :
  let r := RegOracle_init b0 b1 w in
  exists self,
    fst r = inr self /\
    returned (RegOracle_predict self X (snd r))
    = inr (Some (PyList
        (map (fun x => int_of_bool (num_ltb (cost1 (reshape_1 x))
                                            (cost0 (reshape_1 x)))) rows))).
Proof.
  intros r. subst r. unfold RegOracle_init, alloc. cbn.
  set (self := fresh (dom (heap w))). exists self. split; [done|].
  eapply (oracle_predict_costs _ self b0 b1 cost0 cost1 X rows s); try done.
  - cbn. by rewrite lookup_insert_eq.
  - cbn. rewrite lookup_insert_ne; [done|]. by eapply fresh_heap.
Qed.

(** ** Errors of the linear-threshold classifiers *)

Lemma linear_scan_outcome (a : list R) rows : forall acc,
  (Forall (fun x => length x = length a) rows /\
   exists ls, linear_scan a rows acc = (inr tt, ls)) \/
  (Exists (fun x => length x <> length a) rows /\
   exists ls, linear_scan a rows acc = (inl ValueError, ls)).
Proof.
  induction rows as [|x rows IH]; intros acc; cbn [linear_scan].
  - left. split; [constructor | by eexists].
  - destruct (Nat.eqb (length a) (length x)) eqn:Hlen.
    + apply Nat.eqb_eq in Hlen.
      destruct (IH (acc ++ [threshold_label a x])) as [[Hall Hls]|[Hex Hls]].
      * left. split; [by constructor | done].
      * right. split; [by apply Exists_cons_tl | done].
    + apply Nat.eqb_neq in Hlen. right.
      split; [apply Exists_cons_hd; congruence | by eexists].
Qed.

(** X7. The only exception a linear-threshold [predict] raises on a
    well-formed instance and data set is [ValueError], and it raises it
    exactly when some row has not as many entries as the weight vector;
    in particular a mismatch goes unnoticed on a data set without rows. *)
Theorem linear_predict_dimension_error w self items X rows e
    (Hself : coefficient_of w self = Some items)
    (HX : heap w !! X = Some (DataFrame rows)) :
  let mismatch := Exists (fun x => length x <> length items) rows in
  (returned (LinearThresh_predict self X w) = inl e
     <-> e = ValueError /\ mismatch) /\
  (returned (RandomLinearThresh_predict self X w) = inl e
     <-> e = ValueError /\ mismatch).
Proof.
  intros mismatch.
  destruct (linear_predict_returned w self items X rows Hself HX) as [-> ->].
  assert (Hiff :
    match fst (linear_scan (map to_float items) rows []) with
    | inl e0 => inl e0
    | inr _ => inr (Some (PyList (snd (linear_scan (map to_float items) rows []))))
    end = (inl e : exn + option pyobj) <-> e = ValueError /\ mismatch).
  { destruct (linear_scan_outcome (map to_float items) rows [])
      as [[Hall [ls ->]]|[Hex [ls ->]]]; cbn [fst snd].
    - split; [done|]. intros [_ Hm]. exfalso.
      apply Exists_exists in Hm as (x & Hx & Hne).
      rewrite Forall_forall in Hall. specialize (Hall x Hx).
      by rewrite length_map in Hall.
    - split; [intros [= <-]; split; [done|] | by intros [-> _]].
      eapply Exists_impl; [exact Hex|]. intros x Hx. by rewrite length_map in Hx. }
  by split.
Qed.

(** ** The breakpoint of the regression oracle *)

Lemma oracle_predict_quit_eq w self (b0 b1 : regressor) X rows :
  heap w !! self = Some (RegOracleObj b0 b1) ->
  heap w !! X = Some (DataFrame rows) ->
  stdin w = [] \/ (exists s, stdin w = pdb_quit :: s) ->
  RegOracle_predict self X w
  = (inl BdbQuit,
     set_stdin (tail (stdin w))
       (set_heap (<[fresh (dom (heap w)) := PyList []]> (heap w)) w)).
Proof.
  intros Hs HX Hin. unfold RegOracle_predict.
  rewrite (bind_ok _ _ _ _ _ (getattr_b0_ok _ _ _ _ Hs)).
  rewrite (bind_ok _ _ _ _ _ (getattr_b1_ok _ _ _ _ Hs)).
  rewrite (bind_ok _ _ _ _ _ (shape0_ok _ _ _ HX)).
  unfold bind at 1. unfold alloc at 1. cbv zeta.
  unfold bind at 1. unfold pdb_set_trace at 1. cbn [stdin set_heap].
  destruct Hin as [Hin | [s Hin]]; rewrite Hin; [|done].
  unfold set_stdin, set_heap. cbn. by rewrite Hin.
Qed.

(** X8. When the user quits at the breakpoint, or the debugger has no input
    left, [RegOracle.predict] raises [BdbQuit] before the loop: whatever the
    data set, empty or not, no model is called and nothing is returned. *)
Theorem oracle_predict_quit_calls_no_model w self (b0 b1 : regressor) X rows
    (Hself : heap w !! self = Some (RegOracleObj b0 b1))
    (HX : heap w !! X = Some (DataFrame rows))
    (Hin : stdin w = [] \/ exists s, stdin w = pdb_quit :: s) :
  let r := RegOracle_predict self X w in
  fst r = inl BdbQuit /\ ext (snd r) = ext w /\ heap w ⊆ heap (snd r).
Proof.
  intros r. subst r. rewrite (oracle_predict_quit_eq w self b0 b1 X rows); try done.
  repeat split. cbn. apply insert_subseteq, fresh_heap_None.
Qed.


(** X10. On a data set without rows a resumed [RegOracle.predict] returns
    the empty list it has just created, and calls no model. *)
Theorem oracle_predict_empty w self (b0 b1 : regressor) X s
    (Hself : heap w !! self = Some (RegOracleObj b0 b1))
    (HX : heap w !! X = Some (DataFrame []))
    (Hin : stdin w = pdb_continue :: s) :
  exists y,
    heap w !! y = None /\
    RegOracle_predict self X w
    = (inr y, set_stdin s (set_heap (<[y := PyList []]> (heap w)) w)).
Proof.
  exists (fresh (dom (heap w))). split; [apply fresh_heap_None|].
  by rewrite (oracle_predict_resumed w self b0 b1 X [] s).
Qed.

(** ** Effects of the linear-threshold classifiers *)

Lemma quiet_refl w : quiet w w.
Proof. by split. Qed.

Lemma quiet_trans w1 w2 w3 : quiet w1 w2 -> quiet w2 w3 -> quiet w1 w3.
Proof. intros [He1 Hs1] [He2 Hs2]. split; congruence. Qed.

Lemma bind_quiet {A B} (c : M A) (k : A -> M B) :
  (forall w, quiet w (snd (c w))) ->
  (forall a w, quiet w (snd (k a w))) ->
  forall w, quiet w (snd (bind c k w)).
Proof.
  intros Hc Hk w. unfold bind. specialize (Hc w).
  destruct (c w) as [[e|a] w1]; [done|].
  eapply quiet_trans; [exact Hc | apply Hk].
Qed.

Lemma for_each_quiet body idx :
  (forall i w, quiet w (snd (body i w))) ->
  forall w, quiet w (snd (for_each idx body w)).
Proof.
  intros Hbody. induction idx as [|i idx IH]; intros w; cbn [for_each].
  - apply quiet_refl.
  - apply bind_quiet; [apply Hbody | intros _; apply IH].
Qed.

Lemma same_quiet {A} (c : M A) w : snd (c w) = w -> quiet w (snd (c w)).
Proof. intros ->. apply quiet_refl. Qed.

Lemma list_append_quiet y v w : quiet w (snd (list_append y v w)).
Proof. unfold list_append. by destruct (heap w !! y) as [[]|]. Qed.

Lemma linear_predict_quiet self X w :
  quiet w (snd (LinearThresh_predict self X w)) /\
  quiet w (snd (RandomLinearThresh_predict self X w)).
Proof.
  assert (Hrun : forall w, quiet w (snd (
    (let! beta := getattr_coefficient self in
     let! n := shape0 X in
     let! y := alloc (PyList []) in
     for_each (range n) (fun i =>
       let! x_i := iloc X i in
       let! c_1 := np_dot beta x_i in
       let y_i := int_of_bool (num_ltb c_1 (num_of_Z 0)) in
       list_append y y_i) ;;
     ret y) w))).
  { apply bind_quiet; [intros; apply same_quiet, getattr_coefficient_same|].
    intros beta. apply bind_quiet; [intros; apply same_quiet, shape0_same|].
    intros n. apply bind_quiet; [done|]. intros y.
    apply bind_quiet; [|intros; apply quiet_refl].
    apply for_each_quiet. intros i.
    apply bind_quiet; [intros; apply same_quiet, iloc_same|]. intros x_i.
    apply bind_quiet; [intros; apply same_quiet, np_dot_same|]. intros c_1.
    apply list_append_quiet. }
  split; [unfold LinearThresh_predict | unfold RandomLinearThresh_predict];
    apply Hrun.
Qed.

Lemma frame_fresh_delete w w' :
  frame (fresh (dom (heap w))) w w' ->
  delete (fresh (dom (heap w))) (heap w') = heap w.
Proof.
  intros [Hf _]. apply map_eq. intros l.
  destruct (decide (l = fresh (dom (heap w)))) as [->|Hne].
  - by rewrite lookup_delete_eq, fresh_heap_None.
  - rewrite lookup_delete_ne by done. by apply Hf.
Qed.

(** X11. A call of [LinearThresh.predict] or [RandomLinearThresh.predict],
    whether it returns or raises, changes the store by at most one new
    object, the result list: taking that object away gives back the store
    of before the call.  No model is called, no command is read from the
    debugger and the random generator is not advanced. *)
Theorem linear_predict_only_allocates self X w :
  let y := fresh (dom (heap w)) in
  let r := LinearThresh_predict self X w in
  let q := RandomLinearThresh_predict self X w in
  (delete y (heap (snd r)) = heap w /\ ext (snd r) = ext w /\
   stdin (snd r) = stdin w /\ rng (snd r) = rng w) /\
  (delete y (heap (snd q)) = heap w /\ ext (snd q) = ext w /\
   stdin (snd q) = stdin w /\ rng (snd q) = rng w).
Proof.
  intros y r q.
  destruct (linear_predict_frame self X w) as [Fr Fq].
  destruct (linear_predict_quiet self X w) as [[Er Sr] [Eq Sq]].
  repeat split; try done; try (by apply frame_fresh_delete);
    [apply Fr | apply Fq].
Qed.

End Further.

(** ** Calls made by the regression oracle *)

Section Tracing.

Context {R : Type} `{Number R}.

Lemma oracle_scan_traced (f0 f1 : list (list R) -> R) (rows : list (list R)) :
  forall e (acc : list (@value R)),
    oracle_scan (traced 0 (fun x => inr (f0 x))) (traced 1 (fun x => inr (f1 x)))
                rows e acc
    = (inr tt,
       e ++ flat_map (fun x => [(0%nat, [x]); (1%nat, [x])]) rows,
       acc ++ map (fun x => cost_label (f0 [x]) (f1 [x])) rows).
Proof.
  induction rows as [|x rows IH]; intros e acc; cbn.
  - by rewrite !app_nil_r.
  - rewrite IH. unfold reshape_1, cost_label. by rewrite <- !app_assoc.
Qed.

(** X12. With models that record their calls, a resumed
    [RegOracle.predict] is seen to call, for each row in the order of the
    data set, first [b0.predict] and then [b1.predict], each exactly once,
    on the row reshaped into a matrix of one row. *)
Theorem oracle_predict_call_trace
    (w : @World R (list (nat * list (list R)))) self
    (f0 f1 : list (list R) -> R) X rows s
    (Hself : heap w !! self
             = Some (RegOracleObj (traced 0 (fun x => inr (f0 x)))
                                  (traced 1 (fun x => inr (f1 x)))))
    (HX : heap w !! X = Some (DataFrame rows))
    (Hin : stdin w = pdb_continue :: s) :
  ext (snd (RegOracle_predict self X w))
  = ext w ++ flat_map (fun x => [(0%nat, [x]); (1%nat, [x])]) rows.
Proof.
  rewrite (oracle_predict_resumed w self _ _ X rows s Hself HX Hin).
  unfold oracle_outcome. cbn [snd ext set_ext].
  by rewrite oracle_scan_traced.
Qed.

End Tracing.

(** ** Order of the models, over the rationals *)

Section RationalOracle.

Context {Ext : Type}.

Lemma Q_cost_labels (c_0 c_1 : Q) :
  exists n1 n2 : Z,
    cost_label c_0 c_1 = VInt n1 /\ cost_label c_1 c_0 = VInt n2 /\
    if Qeq_bool c_0 c_1 then n1 = 0 /\ n2 = 0 else n1 + n2 = 1.
Proof.
  unfold cost_label, int_of_bool. cbn [num_ltb Number_Q].
  destruct (Qeq_bool c_0 c_1) eqn:Heq.
  - apply Qeq_bool_iff in Heq.
    assert (H01 : Qle_bool c_0 c_1 = true) by (apply Qle_bool_iff; rewrite Heq; apply Qle_refl).
    assert (H10 : Qle_bool c_1 c_0 = true) by (apply Qle_bool_iff; rewrite Heq; apply Qle_refl).
    rewrite H01, H10. by exists 0, 0.
  - apply Qeq_bool_neq in Heq.
    destruct (Qle_bool c_0 c_1) eqn:H01, (Qle_bool c_1 c_0) eqn:H10; cbn.
    + apply Qle_bool_iff in H01, H10. destruct Heq. by apply Qle_antisym.
    + by exists 0, 1.
    + by exists 1, 0.
    + exfalso. destruct (Qlt_le_dec c_0 c_1) as [Hlt|Hle].
      * apply Qlt_le_weak, Qle_bool_iff in Hlt. congruence.
      * apply Qle_bool_iff in Hle. congruence.
Qed.

Lemma oracle_scan_costs_on (b0 b1 : @regressor Q Ext) cost0 cost1 rows :
  (forall x, x ∈ rows -> forall e,
     fst (reg_predict b0 (reshape_1 x) e) = inr (cost0 (reshape_1 x))) ->
  (forall x, x ∈ rows -> forall e,
     fst (reg_predict b1 (reshape_1 x) e) = inr (cost1 (reshape_1 x))) ->
  forall e acc, exists e',
    oracle_scan b0 b1 rows e acc
    = (inr tt, e',
       acc ++ map (fun x => cost_label (cost0 (reshape_1 x)) (cost1 (reshape_1 x)))
                  rows).
Proof.
  induction rows as [|x rows IH]; intros Hb0 Hb1 e acc; cbn [oracle_scan map].
  - exists e. by rewrite app_nil_r.
  - pose proof (Hb0 x ltac:(left) e) as H0.
    destruct (reg_predict b0 (reshape_1 x) e) as [r0 e0]. cbn in H0. subst r0.
    pose proof (Hb1 x ltac:(left) e0) as H1.
    destruct (reg_predict b1 (reshape_1 x) e0) as [r1 e1]. cbn in H1. subst r1.
    destruct (IH (fun y Hy => Hb0 y (list_elem_of_further _ _ _ Hy))
                 (fun y Hy => Hb1 y (list_elem_of_further _ _ _ Hy))
                 e1 (acc ++ [int_of_bool (num_ltb (cost1 (reshape_1 x))
                                                  (cost0 (reshape_1 x)))]))
      as [e' ->].
    exists e'. by rewrite <- app_assoc.
Qed.

Lemma oracle_predict_costs_on (w : @World Q Ext) self b0 b1 cost0 cost1 X rows s :
  heap w !! self = Some (RegOracleObj b0 b1) ->
  heap w !! X = Some (DataFrame rows) ->
  stdin w = pdb_continue :: s ->
  (forall x, x ∈ rows -> forall e,
     fst (reg_predict b0 (reshape_1 x) e) = inr (cost0 (reshape_1 x))) ->
  (forall x, x ∈ rows -> forall e,
     fst (reg_predict b1 (reshape_1 x) e) = inr (cost1 (reshape_1 x))) ->
  returned (RegOracle_predict self X w)
  = inr (Some (PyList
      (map (fun x => cost_label (cost0 (reshape_1 x)) (cost1 (reshape_1 x))) rows))).
Proof.
  intros Hs HX Hin Hb0 Hb1.
  rewrite (oracle_predict_resumed w self b0 b1 X rows s Hs HX Hin).
  destruct (oracle_scan_costs_on b0 b1 cost0 cost1 rows Hb0 Hb1 (ext w) [])
    as [e' ->].
  unfold oracle_outcome, returned. cbn. by rewrite lookup_insert_eq.
Qed.

(** X13. Over the rationals, take two models that, on each row of the data
    set, return a cost that is a function of the row, and two oracles made
    of them in either order, each called in a resumed debugger session.
    Exchanging the models exchanges the labels 0 and 1 on every row where
    the two costs differ, and leaves the label 0 on every row where they
    are equal. *)
Theorem RegOracle_exchanged_models
    (w : @World Q Ext) o1 o2 b0 b1 cost0 cost1 X rows s
    (Ho1 : heap w !! o1 = Some (RegOracleObj b0 b1))
    (Ho2 : heap w !! o2 = Some (RegOracleObj b1 b0))
    (HX : heap w !! X = Some (DataFrame rows))
    (Hin : stdin w = pdb_continue :: s)
    (Hb0 : forall x, x ∈ rows -> forall e,
             fst (reg_predict b0 (reshape_1 x) e) = inr (cost0 (reshape_1 x)))
    (Hb1 : forall x, x ∈ rows -> forall e,
             fst (reg_predict b1 (reshape_1 x) e) = inr (cost1 (reshape_1 x))) :
  exists ls1 ls2,
    returned (RegOracle_predict o1 X w) = inr (Some (PyList ls1)) /\
    returned (RegOracle_predict o2 X w) = inr (Some (PyList ls2)) /\
    forall i x, rows !! i = Some x ->
      exists n1 n2 : Z,
        ls1 !! i = Some (VInt n1) /\ ls2 !! i = Some (VInt n2) /\
        if Qeq_bool (cost0 (reshape_1 x)) (cost1 (reshape_1 x))
        then n1 = 0 /\ n2 = 0 else n1 + n2 = 1.
Proof.
  eexists _, _.
  split; [by eapply (oracle_predict_costs_on w o1 b0 b1 cost0 cost1)|].
  split; [by eapply (oracle_predict_costs_on w o2 b1 b0 cost1 cost0)|].
  intros i x Hi. rewrite !list_lookup_fmap, Hi. cbn.
  destruct (Q_cost_labels (cost0 (reshape_1 x)) (cost1 (reshape_1 x)))
    as (n1 & n2 & -> & -> & Hn).
  by exists n1, n2.
Qed.

End RationalOracle.

(** ** The further properties at the small stores *)

Example oracle_predict_call_trace_example :
  ext (snd (RegOracle_predict 2%positive 1%positive TracedExamples.world))
  = [(0%nat, [[2; 1]]); (1%nat, [[2; 1]]);
     (0%nat, [[1; 2]]); (1%nat, [[1; 2]])]%Q.
Proof. vm_compute. reflexivity. Qed.

Example RegOracle_exchanged_models_example :
  returned (RegOracle_predict 2%positive 1%positive ExchangedExamples.world)
    = inr (Some (PyList [VInt 1; VInt 0; VInt 0])) /\
  returned (RegOracle_predict 3%positive 1%positive ExchangedExamples.world)
    = inr (Some (PyList [VInt 0; VInt 1; VInt 0])).
Proof. split; vm_compute; reflexivity. Qed.

Lemma LinearThresh_init_aliases_argument_witness :
  let r := LinearThresh_init 1%positive Examples.world in
  exists self,
    fst r = inr self /\
    heap Examples.world !! self = None /\
    heap (snd r) !! self = Some (LinearThreshObj 1%positive) /\
    coefficient_of (snd r) self = Some Examples.weights /\
    coefficient_of (snd (list_append 1%positive (VInt 5) (snd r))) self
      = Some (Examples.weights ++ [VInt 5]).
Proof.
  apply (LinearThresh_init_aliases_argument
           Examples.world 1%positive Examples.weights (VInt 5)).
  reflexivity.
Defined.

Lemma LinearThresh_construct_then_predict_witness :
  let r := LinearThresh_init 1%positive Examples.world in
  exists self,
    fst r = inr self /\
    returned (LinearThresh_predict self 3%positive (snd r))
    = inr (Some (PyList (map (threshold_label (map to_float Examples.weights))
                             Examples.rows))).
Proof.
  apply (LinearThresh_construct_then_predict
           Examples.world 1%positive Examples.weights 3%positive Examples.rows).
  - reflexivity.
  - reflexivity.
  - repeat constructor.
Defined.

Lemma RandomLinearThresh_construct_then_predict_witness :
  let r := RandomLinearThresh_init 2 Examples.world in
  let ws := sampled_entries (-1) 1 (rng Examples.world) (Z.to_nat 2) in
  exists self,
    fst r = inr self /\
    returned (RandomLinearThresh_predict self 3%positive (snd r))
    = inr (Some (PyList (map (threshold_label ws) Examples.rows))).
Proof.
  apply (RandomLinearThresh_construct_then_predict
           Examples.world 2 3%positive Examples.rows).
  - reflexivity.
  - repeat constructor.
Defined.

Lemma RegOracle_construct_then_predict_witness :
  let r := RegOracle_init Examples.head_model Examples.last_model
                          Examples.world in
  exists self,
    fst r = inr self /\
    returned (RegOracle_predict self 3%positive (snd r))
    = inr (Some (PyList
        (map (fun x => int_of_bool
                         (num_ltb (Examples.last_cost (reshape_1 x))
                                  (Examples.head_cost (reshape_1 x))))
             Examples.rows))).
Proof.
  apply (RegOracle_construct_then_predict
           Examples.world Examples.head_model Examples.last_model
           Examples.head_cost Examples.last_cost 3%positive Examples.rows []).
  - reflexivity.
  - reflexivity.
  - intros x e. reflexivity.
  - intros x e. reflexivity.
Defined.

Lemma linear_predict_dimension_error_witness :
  let mismatch := Exists (fun x : list Q => length x <> length Examples.weights)
                         Examples.ragged_rows in
  (returned (LinearThresh_predict 2%positive 8%positive Examples.world)
     = inl ValueError <-> ValueError = ValueError /\ mismatch) /\
  (returned (RandomLinearThresh_predict 2%positive 8%positive Examples.world)
     = inl ValueError <-> ValueError = ValueError /\ mismatch).
Proof.
  apply (linear_predict_dimension_error
           Examples.world 2%positive Examples.weights 8%positive
           Examples.ragged_rows ValueError).
  - reflexivity.
  - reflexivity.
Defined.

Lemma oracle_predict_quit_calls_no_model_witness :
  let r := RegOracle_predict 6%positive 3%positive Examples.batch_world in
  fst r = inl BdbQuit /\ ext (snd r) = ext Examples.batch_world /\
  heap Examples.batch_world ⊆ heap (snd r).
Proof.
  apply (oracle_predict_quit_calls_no_model
           Examples.batch_world 6%positive Examples.head_model
           Examples.last_model 3%positive Examples.rows).
  - reflexivity.
  - reflexivity.
  - left. reflexivity.
Defined.


Lemma oracle_predict_empty_witness :
  exists y,
    heap Examples.world !! y = None /\
    RegOracle_predict 6%positive 7%positive Examples.world
    = (inr y, set_stdin [] (set_heap (<[y := PyList []]> (heap Examples.world))
                                     Examples.world)).
Proof.
  apply (oracle_predict_empty
           Examples.world 6%positive Examples.head_model Examples.last_model
           7%positive []).
  - reflexivity.
  - reflexivity.
  - reflexivity.
Defined.

Lemma oracle_predict_call_trace_witness :
  ext (snd (RegOracle_predict 2%positive 1%positive TracedExamples.world))
  = ext TracedExamples.world
    ++ flat_map (fun x => [(0%nat, [x]); (1%nat, [x])]) Examples.rows.
Proof.
  apply (oracle_predict_call_trace
           TracedExamples.world 2%positive Examples.head_cost Examples.last_cost
           1%positive Examples.rows []).
  - reflexivity.
  - reflexivity.
  - reflexivity.
Defined.

Lemma RegOracle_exchanged_models_witness :
  exists ls1 ls2,
    returned (RegOracle_predict 2%positive 1%positive ExchangedExamples.world)
      = inr (Some (PyList ls1)) /\
    returned (RegOracle_predict 3%positive 1%positive ExchangedExamples.world)
      = inr (Some (PyList ls2)) /\
    forall i x, ExchangedExamples.rows !! i = Some x ->
      exists n1 n2 : Z,
        ls1 !! i = Some (VInt n1) /\ ls2 !! i = Some (VInt n2) /\
        if Qeq_bool (Examples.head_cost (reshape_1 x))
                    (Examples.last_cost (reshape_1 x))
        then n1 = 0 /\ n2 = 0 else n1 + n2 = 1.
Proof.
  apply (RegOracle_exchanged_models
           ExchangedExamples.world 2%positive 3%positive
           Examples.head_model Examples.last_model
           Examples.head_cost Examples.last_cost
           1%positive ExchangedExamples.rows []).
  - reflexivity.
  - reflexivity.
  - reflexivity.
  - reflexivity.
  - intros x _ e. reflexivity.
  - intros x _ e. reflexivity.
Defined.
